(** * Dropbox batch downloader: orchestration engine

    A shallow embedding of [src/batch_processor.py], [src/cli.py] and
    [src/models.py], and the properties of the retry protocol, the
    per-item pipeline and the statistics that the specification states.

    The Python code is effectful: it reads and writes spreadsheets, walks
    and changes a directory tree, calls an external download engine, prints
    and reads the terminal, and raises exceptions.  All of this is threaded
    through an explicit [World] by a state-and-exception monad [M]. *)

From Stdlib Require Import ZArith Ascii String List Bool Lia.
From stdpp Require Import base decidable option list gmap strings pretty.

Open Scope Z_scope.

(** ** Python strings *)

Module Str.

  (** Characters removed by [str.strip()] without an argument. *)
Definition is_ws (c : ascii) : bool :=
    let n := nat_of_ascii c in
    ((n =? 32) || ((9 <=? n) && (n <=? 13)) || ((28 <=? n) && (n <=? 31)))%nat.

Fixpoint lstrip (s : string) : string :=
    match s with
    | String c s' => if is_ws c then lstrip s' else s
    | EmptyString => EmptyString
    end.

  (** [rstrip]: a character is kept when it is no white space or when
      something is kept after it. *)
Fixpoint rstrip (s : string) : string :=
    match s with
    | String c s' =>
        match rstrip s' with
        | EmptyString => if is_ws c then EmptyString else String c EmptyString
        | r => String c r
        end
    | EmptyString => EmptyString
    end.

  (** [s.strip()] *)
Definition strip (s : string) : string := rstrip (lstrip s).

  (** [s.startswith(p)] *)
Fixpoint startswith (p s : string) : bool :=
    match p, s with
    | EmptyString, _ => true
    | String a p', String b s' => if Ascii.eqb a b then startswith p' s' else false
    | String _ _, EmptyString => false
    end.

  (** [p in s] on strings: [p] occurs in [s] as a substring. *)
Fixpoint contains (p s : string) : bool :=
    startswith p s ||
    match s with
    | String _ s' => contains p s'
    | EmptyString => false
    end.

Fixpoint upper (s : string) : string :=
    match s with
    | String c s' =>
        let n := nat_of_ascii c in
        String (if ((97 <=? n) && (n <=? 122))%nat then ascii_of_nat (n - 32) else c)
               (upper s')
    | EmptyString => EmptyString
    end.

  (** [s.rfind(c)] for a one-character needle; [None] is Python's -1. *)
Fixpoint rfind (c : ascii) (s : string) : option nat :=
    match s with
    | EmptyString => None
    | String a s' =>
        match rfind c s' with
        | Some i => Some (S i)
        | None => if Ascii.eqb a c then Some O else None
        end
    end.

  (** [s.split(c)] for a one-character separator. *)
Fixpoint split (c : ascii) (s : string) : list string :=
    match s with
    | EmptyString => [EmptyString]
    | String a s' =>
        if Ascii.eqb a c then EmptyString :: split c s'
        else match split c s' with
             | w :: ws => String a w :: ws
             | [] => [String a EmptyString]
             end
    end.

  (** [s[:n]] and [s[n:]] *)
Fixpoint take (n : nat) (s : string) : string :=
    match n, s with
    | S n', String a s' => String a (take n' s')
    | _, _ => EmptyString
    end.

Fixpoint drop (n : nat) (s : string) : string :=
    match n, s with
    | S n', String _ s' => drop n' s'
    | _, _ => s
    end.

  (** Truthiness of a string: non-empty. *)
Definition truthy (s : string) : bool :=
    match s with EmptyString => false | _ => true end.

End Str.

(** [str(n)] / [f"{n}"] for an integer. *)
Definition str_of_Z (n : Z) : string := pretty n.

(** ** Paths ([pathlib.PurePosixPath])

    A path is its anchor (is it absolute?) and its components; the string
    is parsed the way [pathlib] does: split at the separator, empty and
    ["."] components dropped.  [".."] is kept as a component, as [pathlib]
    keeps it.  Paths have this POSIX flavour on every platform; the
    platform only decides the name of the engine's session. *)

Record Path := mkPath { anchor : bool; comps : list string }.

Global Instance Path_eq_dec : EqDecision Path.
Proof. solve_decision. Defined.

Global Instance Path_countable : Countable Path.
Proof.
  refine (inj_countable' (λ p, (anchor p, comps p)) (λ x, mkPath x.1 x.2) _).
  intros []; reflexivity.
Defined.

Module PathOps.

Definition slash : ascii := "/"%char.
Definition dot : ascii := "."%char.

Definition keep_comp (c : string) : bool :=
    negb (String.eqb c EmptyString || String.eqb c ".").

  (** [Path(s)] *)
Definition of_str (s : string) : Path :=
    mkPath (Str.startswith "/" s) (List.filter keep_comp (Str.split slash s)).

  (** [p / s] *)
Definition join (p : Path) (s : string) : Path :=
    let q := of_str s in
    if anchor q then q else mkPath (anchor p) (comps p ++ comps q).

  (** [p.name] *)
Definition name (p : Path) : string := List.last (comps p) EmptyString.

  (** [p.parent] *)
Definition parent (p : Path) : Path := mkPath (anchor p) (List.removelast (comps p)).

  (** The split point of [name] used by [suffix] and [stem]:
      [i = name.rfind('.')] when [0 < i < len(name) - 1]. *)
Definition suffix_at (n : string) : option nat :=
    match Str.rfind dot n with
    | Some i => if ((0 <? i) && (i <? String.length n - 1))%nat then Some i else None
    | None => None
    end.

Definition suffix_of_name (n : string) : string :=
    match suffix_at n with Some i => Str.drop i n | None => EmptyString end.

Definition stem_of_name (n : string) : string :=
    match suffix_at n with Some i => Str.take i n | None => n end.

  (** [p.suffix] and [p.stem] *)
Definition suffix (p : Path) : string := suffix_of_name (name p).
Definition stem (p : Path) : string := stem_of_name (name p).

Fixpoint concat_sep (l : list string) : string :=
    match l with
    | [] => EmptyString
    | [c] => c
    | c :: l' => c +:+ "/" +:+ concat_sep l'
    end.

  (** [str(p)] *)
Definition to_str (p : Path) : string :=
    if anchor p then "/" +:+ concat_sep (comps p)
    else match comps p with [] => "." | cs => concat_sep cs end.

  (** The absolute path a (possibly relative) path denotes in a process
      whose working directory is [cwd]. *)
Definition resolve (cwd p : Path) : Path :=
    if anchor p then p else mkPath (anchor cwd) (comps cwd ++ comps p).

End PathOps.

Notation "p // s" := (PathOps.join p s) (at level 40, left associativity).

(** ** The directory tree

    The output tree is a list of the nodes that exist, each under its
    absolute path, in the order a directory scan yields them.  The root
    always exists. *)

Inductive Node := NDir | NFile.

Global Instance Node_eq_dec : EqDecision Node.
Proof. solve_decision. Defined.

Definition Tree := list (Path * Node).

Module TreeOps.

Fixpoint assoc (t : Tree) (p : Path) : option Node :=
    match t with
    | [] => None
    | (q, n) :: t' => if decide (q = p) then Some n else assoc t' p
    end.

Definition node_at (t : Tree) (p : Path) : option Node :=
    match comps p with
    | [] => Some NDir
    | _ => assoc t p
    end.

Definition exists_ (t : Tree) (p : Path) : bool :=
    match node_at t p with Some _ => true | None => false end.

Definition is_dir (t : Tree) (p : Path) : bool :=
    match node_at t p with Some NDir => true | _ => false end.

Definition is_file (t : Tree) (p : Path) : bool :=
    match node_at t p with Some NFile => true | _ => false end.

  (** The entries directly inside [d], in scan order. *)
Definition children (t : Tree) (d : Path) : list (Path * Node) :=
    List.filter (λ e, bool_decide (PathOps.parent e.1 = d ∧ comps e.1 ≠ [])) t.

Definition remove (t : Tree) (p : Path) : Tree :=
    List.filter (λ e, negb (bool_decide (e.1 = p))) t.

  (** Is [d] the path [p] or one of its ancestors? *)
Definition under (d p : Path) : bool :=
    bool_decide (anchor d = anchor p) &&
    bool_decide (List.firstn (length (comps d)) (comps p) = comps d).

Definition remove_tree (t : Tree) (d : Path) : Tree :=
    List.filter (λ e, negb (under d e.1)) t.

End TreeOps.

(** ** Spreadsheets and data frames ([pandas])

    A cell is missing ([None], pandas' NaN) or holds a value, kept as the
    text [str(value)] gives: the code only ever looks at cells through
    [str], [pd.notna] and [dropna]. *)

Definition Cell := option string.

(** A spreadsheet file: the header row and the data rows. *)
Record Sheet := mkSheet { columns : list string; rows : list (list Cell) }.

(** A row as the code sees it ([pandas.Series], and [row.to_dict()]):
    the column names with the row's cells, in column order. *)
Definition Series := list (string * Cell).

(** A [DataFrame]: the columns and the rows, each under its index label. *)
Record DataFrame := mkDF { df_columns : list string; df_rows : list (Z * Series) }.

Module Pandas.

  (** Pair the columns with a row's cells; cells missing at the end of a
      short row are NaN. *)
Fixpoint series_of (cols : list string) (cells : list Cell) : Series :=
    match cols with
    | [] => []
    | c :: cols' =>
        match cells with
        | [] => (c, None) :: series_of cols' []
        | x :: cells' => (c, x) :: series_of cols' cells'
        end
    end.

Fixpoint number_from (i : Z) (cols : list string) (rs : list (list Cell))
    : list (Z * Series) :=
    match rs with
    | [] => []
    | r :: rs' => (i, series_of cols r) :: number_from (i + 1) cols rs'
    end.

  (** [pd.read_excel] on the content of a file: a fresh index 0, 1, ... *)
Definition of_sheet (s : Sheet) : DataFrame :=
    mkDF (columns s) (number_from 0 (columns s) (rows s)).

  (** [row.get(col)]: [None] when the column is absent. *)
Fixpoint get (r : Series) (col : string) : option Cell :=
    match r with
    | [] => None
    | (c, x) :: r' => if String.eqb c col then Some x else get r' col
    end.

  (** [row[col]] for a column that exists; NaN otherwise. *)
Definition at_ (r : Series) (col : string) : Cell :=
    match get r col with Some x => x | None => None end.

  (** [str(v)] of a cell: a missing one prints as [nan]. *)
Definition str (c : Cell) : string :=
    match c with Some s => s | None => "nan" end.

  (** [pd.notna(v)]; [row.get] of an absent column is Python's [None],
      which is not "notna" either. *)
Definition notna (c : option Cell) : bool :=
    match c with Some (Some _) => true | _ => false end.

  (** [df.dropna(subset=cols)]: index labels are kept. *)
Definition dropna (subset : list string) (df : DataFrame) : DataFrame :=
    mkDF (df_columns df)
         (List.filter (λ r, forallb (λ c, notna (Some (at_ r.2 c))) subset) (df_rows df)).

  (** [pd.DataFrame(dicts)] for dictionaries that share their keys (here:
      rows of one frame): the columns are the keys of the first. *)
Definition of_dicts (ds : list Series) : list string * list Series :=
    (match ds with d :: _ => map fst d | [] => [] end, ds).

  (** [df.to_excel(path, index=False)]: the content written. *)
Definition to_sheet (cols : list string) (rs : list Series) : Sheet :=
    mkSheet cols (map (map snd) rs).

  (** [df.empty]: no rows or no columns. *)
Definition empty (cols : list string) (rs : list Series) : bool :=
    match cols, rs with
    | _ :: _, _ :: _ => false
    | _, _ => true
    end.

End Pandas.

(** ** [models.py] *)

Record FailedItem := mkFailed {
  f_upc : string;
  f_url : string;
  f_error : string;
  f_row_data : Series
}.

Record DownloadStats := mkStats {
  total : Z;
  completed : Z;
  skipped : Z;
  failed : list FailedItem
}.

Definition DownloadStats_new : DownloadStats := mkStats 0 0 0 [].

Definition add_completed (s : DownloadStats) : DownloadStats :=
  mkStats (total s) (completed s + 1) (skipped s) (failed s).

Definition add_skipped (s : DownloadStats) : DownloadStats :=
  mkStats (total s) (completed s) (skipped s + 1) (failed s).

Definition add_failed (s : DownloadStats) (upc url error : string) (row_data : Series)
  : DownloadStats :=
  mkStats (total s) (completed s) (skipped s)
          (failed s ++ [mkFailed upc url error row_data]).

Definition set_total (s : DownloadStats) (n : Z) : DownloadStats :=
  mkStats n (completed s) (skipped s) (failed s).

(** ** The world the program runs in *)

(** What the external download engine is called with. *)
Record EngineArgs := mkEngineArgs {
  ea_url : string;
  ea_output_dir : string;
  ea_debug : bool;
  ea_user_data_dir : string;
  ea_file_label : string
}.

(** The three marks the per-item report line is written with. *)
Inductive Outcome := Completed | Skipped | Failed.

(** What the program does that can be observed from outside, and the entry
    into the per-item pipeline. *)
Inductive Event :=
| EvReading (excel_file : string)              (* "Reading Excel file: ..." *)
| EvError (msg : string)                       (* an error line before [sys.exit] *)
| EvPipeline (upc : string) (thread_id : Z)    (* [download_and_rename] entered *)
| EvEngine (a : EngineArgs)                    (* [download_first_file] called *)
| EvReport (o : Outcome) (upc msg : string)    (* the per-item line of the progress bar *)
| EvSummary (s : DownloadStats)                (* [stats.print_summary()] *)
| EvSaved (p : Path)                           (* "Failed downloads saved to: ..." *)
| EvPruned (name : string) (remaining : nat)   (* "Removed ..." / "Updated ..." *)
| EvWarning (msg : string)                     (* "Could not update failed Excel file" *)
| EvAllDone                                    (* "All downloads completed successfully!" *)
| EvLimit (max_retries : Z) (name : string)    (* "Reached maximum retry limit" *)
| EvAutoRetry (retry_count max_retries : Z)    (* "Auto-retry ..." *)
| EvHint (name : string)                       (* [_print_retry_hint] *)
| EvPrompt                                     (* [input("Would you like to retry ...")] *)
| EvNote (msg : string).                       (* any other line *)

(** The spreadsheets live in a store of their own, apart from the output
    tree; the trace has the newest event first. *)
Record World := mkWorld {
  tree : Tree;
  sheets : gmap Path Sheet;
  stdin : list string;
  trace : list Event
}.

Inductive Exn :=
| Exception (msg : string)   (* any instance of Python's [Exception] *)
| SystemExit (code : Z)      (* [sys.exit(code)] *)
| OutOfFuel.                 (* the model's loop bound was reached *)

(** What the program cannot decide: where it runs, what the engine does,
    and how the thread pool schedules. *)
Record Env := mkEnv {
  cwd : Path;                  (* [Path.cwd()] *)
  is_windows : bool;           (* [platform.system() == "Windows"] *)
  gettempdir : string;         (* [tempfile.gettempdir()] *)
  (** The engine works on the tree; it returns a path or nothing, or
      raises ([inl]). *)
  download_first_file : EngineArgs → Tree → Tree * (string + option Path);
  (** The pool's choices for the round that starts in a given world: in
      which order the submitted tasks run, and in which order
      [as_completed] hands the futures back.  Each number picks among the
      tasks still waiting. *)
  pool_picks : World → list nat * list nat
}.

(** ** The monad *)

Definition M (A : Type) : Type := World → World * (Exn + A).

Definition ret {A} (a : A) : M A := λ w, (w, inr a).

Definition bind {A B} (m : M A) (f : A → M B) : M B := λ w,
  match m w with
  | (w', inr a) => f a w'
  | (w', inl e) => (w', inl e)
  end.

Declare Scope M_scope.
Delimit Scope M_scope with M.
Bind Scope M_scope with M.

Notation "x ← y ; z" := (bind y (λ x : _, z))
  (at level 20, y at level 100, z at level 200, only parsing) : M_scope.
Notation "' x ← y ; z" := (bind y (λ x : _, z))
  (at level 20, x pattern, y at level 100, z at level 200, only parsing) : M_scope.
Notation "x ;; z" := (bind x (λ _, z))
  (at level 100, z at level 200, only parsing, right associativity) : M_scope.

Open Scope M_scope.

Definition raise {A} (e : Exn) : M A := λ w, (w, inl e).

(** [try: body  except Exception as e: handler(str(e))] *)
Definition try_except {A} (body : M A) (handler : string → M A) : M A := λ w,
  match body w with
  | (w', inl (Exception msg)) => handler msg w'
  | r => r
  end.

(** [try: body  finally: fin]; an exception of [fin] replaces the outcome
    of [body]. *)
Definition try_finally {A} (body : M A) (fin : M unit) : M A := λ w,
  match body w with
  | (w', r) =>
      match fin w' with
      | (w'', inr _) => (w'', r)
      | (w'', inl e) => (w'', inl e)
      end
  end.

Definition emit (e : Event) : M unit := λ w,
  (mkWorld (tree w) (sheets w) (stdin w) (e :: trace w), inr tt).

Definition get_world : M World := λ w, (w, inr w).

Definition set_tree (t : Tree) : M unit := λ w,
  (mkWorld t (sheets w) (stdin w) (trace w), inr tt).

Definition set_sheets (s : gmap Path Sheet) : M unit := λ w,
  (mkWorld (tree w) s (stdin w) (trace w), inr tt).

(** A loop over a list that carries the loop's variables. *)
Fixpoint for_each {A S} (l : list A) (body : A → S → M S) (s : S) : M S :=
  match l with
  | [] => ret s
  | x :: l' => s' ← body x s; for_each l' body s'
  end.

(** An order in which a scheduler takes the elements of a list: each pick
    chooses among those still waiting; when the picks run out the rest
    follows in its own order. *)
Fixpoint reorder {A} (picks : list nat) (l : list A) : list A :=
  match picks with
  | [] => l
  | p :: picks' =>
      match l !! (p mod length l)%nat with
      | Some x => x :: reorder picks' (delete (p mod length l)%nat l)
      | None => l
      end
  end.

Section Program.

Context (env : Env).

(** ** Operating-system calls *)

Definition abs_path (p : Path) : Path := PathOps.resolve (cwd env) p.

(** [p.exists()] and [p.is_file()] on the output tree. *)
Definition path_exists (p : Path) : M bool := λ w,
  (w, inr (TreeOps.exists_ (tree w) (abs_path p))).

Definition path_is_file (p : Path) : M bool := λ w,
  (w, inr (TreeOps.is_file (tree w) (abs_path p))).

(** [p.mkdir(parents=True, exist_ok=True)]: walk down from the root and
    create what is missing; a regular file in the way is an error. *)
Fixpoint mkdir_walk (anch : bool) (pre rest : list string) (t : Tree)
  : Tree * option string :=
  match rest with
  | [] => (t, None)
  | c :: rest' =>
      let p := mkPath anch (pre ++ [c]) in
      match TreeOps.node_at t p with
      | Some NDir => mkdir_walk anch (pre ++ [c]) rest' t
      | Some NFile =>
          (t, Some (match rest' with
                    | [] => "[Errno 17] File exists: "
                    | _ => "[Errno 20] Not a directory: "
                    end +:+ PathOps.to_str p))
      | None => mkdir_walk anch (pre ++ [c]) rest' (t ++ [(p, NDir)])
      end
  end.

Definition mkdir_parents (p : Path) : M unit := λ w,
  let q := abs_path p in
  match mkdir_walk (anchor q) [] (comps q) (tree w) with
  | (t, None) => set_tree t w
  | (t, Some msg) => (_ ← set_tree t; raise (Exception msg)) w
  end.

(** [p.iterdir()]: the children of a directory, as paths below [p]. *)
Definition iterdir (p : Path) : M (list Path) := λ w,
  match TreeOps.node_at (tree w) (abs_path p) with
  | Some NDir =>
      (w, inr (map (λ e, mkPath (anchor p) (comps p ++ [PathOps.name e.1]))
                   (TreeOps.children (tree w) (abs_path p))))
  | Some NFile => (w, inl (Exception ("[Errno 20] Not a directory: " +:+ PathOps.to_str p)))
  | None => (w, inl (Exception ("[Errno 2] No such file or directory: " +:+ PathOps.to_str p)))
  end.

(** Move a path below [s] to the same place below [d]. *)
Definition rebase (s d p : Path) : Path :=
  mkPath (anchor d) (comps d ++ List.skipn (length (comps s)) (comps p)).

(** [shutil.move(src, dst)]: into [dst] when that is a directory, else
    onto [dst], replacing a file that is there. *)
Definition shutil_move (src dst : Path) : M unit := λ w,
  let s := abs_path src in
  let d := abs_path dst in
  let t := tree w in
  let real_dst :=
    if TreeOps.is_dir t d then mkPath (anchor d) (comps d ++ [PathOps.name s]) else d in
  if TreeOps.is_dir t d && TreeOps.exists_ t real_dst then
    (w, inl (Exception ("Destination path '" +:+ PathOps.to_str real_dst +:+ "' already exists")))
  else if negb (TreeOps.exists_ t s) then
    (w, inl (Exception ("[Errno 2] No such file or directory: " +:+ PathOps.to_str s)))
  else if negb (TreeOps.is_dir t (PathOps.parent real_dst)) then
    (w, inl (Exception ("[Errno 2] No such file or directory: " +:+ PathOps.to_str real_dst)))
  else
    let moved := map (λ e, (rebase s real_dst e.1, e.2))
                     (List.filter (λ e, TreeOps.under s e.1) t) in
    let rest := List.filter (λ e, negb (TreeOps.under s e.1)) (TreeOps.remove t real_dst) in
    set_tree (rest ++ moved) w.

(** [shutil.rmtree(p, ignore_errors=...)] *)
Definition rmtree (p : Path) (ignore_errors : bool) : M unit := λ w,
  if TreeOps.is_dir (tree w) (abs_path p) then
    set_tree (TreeOps.remove_tree (tree w) (abs_path p)) w
  else if ignore_errors then (w, inr tt)
  else (w, inl (Exception ("[Errno 20] Not a directory: " +:+ PathOps.to_str p))).

(** The spreadsheet store. *)
Definition sheet_exists (p : Path) : M bool := λ w,
  (w, inr (bool_decide (is_Some (sheets w !! abs_path p)))).

Definition read_excel (p : Path) : M DataFrame := λ w,
  match sheets w !! abs_path p with
  | Some s => (w, inr (Pandas.of_sheet s))
  | None => (w, inl (Exception ("[Errno 2] No such file or directory: " +:+ PathOps.to_str p)))
  end.

Definition to_excel (cols : list string) (rs : list Series) (p : Path) : M unit := λ w,
  set_sheets (<[abs_path p := Pandas.to_sheet cols rs]> (sheets w)) w.

Definition unlink (p : Path) : M unit := λ w,
  match sheets w !! abs_path p with
  | Some _ => set_sheets (delete (abs_path p) (sheets w)) w
  | None => (w, inl (Exception ("[Errno 2] No such file or directory: " +:+ PathOps.to_str p)))
  end.

(** [input(prompt)]: the next line of the terminal, [EOFError] at its end. *)
Definition input_ : M string := λ w,
  match stdin w with
  | line :: rest => (mkWorld (tree w) (sheets w) rest (EvPrompt :: trace w), inr line)
  | [] => (mkWorld (tree w) (sheets w) [] (EvPrompt :: trace w),
           inl (Exception "EOF when reading a line"))
  end.

Definition sys_exit {A} (code : Z) : M A := raise (SystemExit code).

(** The call of the external engine. *)
Definition call_engine (a : EngineArgs) : M (option Path) := λ w,
  let w1 := mkWorld (tree w) (sheets w) (stdin w) (EvEngine a :: trace w) in
  match download_first_file env a (tree w) with
  | (t, inr r) => (mkWorld t (sheets w1) (stdin w1) (trace w1), inr r)
  | (t, inl msg) => (mkWorld t (sheets w1) (stdin w1) (trace w1), inl (Exception msg))
  end.

(** ** [batch_processor.py] *)

(** [Path(output_dir) / category if category else Path(output_dir)] *)
Definition target_of (output_dir : string) (category : option string) : Path :=
  match category with
  | Some c => if Str.truthy c then PathOps.of_str output_dir // c else PathOps.of_str output_dir
  | None => PathOps.of_str output_dir
  end.

(** The loop of [check_existing_file] over the directory's entries. *)
Fixpoint first_match (files : list Path) (upc : string) : M (option Path) :=
  match files with
  | [] => ret None
  | file :: files' =>
      is_f ← path_is_file file;
      if is_f && String.eqb (PathOps.stem file) upc then ret (Some file)
      else first_match files' upc
  end.

Definition check_existing_file (output_dir upc : string) (category : option string)
  : M (option Path) :=
  let output_path := target_of output_dir category in
  ex ← path_exists output_path;
  if negb ex then ret None
  else
    files ← iterdir output_path;
    first_match files upc.

(** The Chrome profile the engine is given. *)
Definition user_data_dir_of (thread_id : Z) (upc : string) : string :=
  if is_windows env then
    gettempdir env +:+ "\chrome-download-" +:+ str_of_Z thread_id +:+ "-" +:+ upc
  else
    "/tmp/chrome-download-" +:+ str_of_Z thread_id.

Definition temp_dir_of (output_dir : string) (thread_id : Z) (upc : string) : Path :=
  PathOps.of_str output_dir // (".tmp_" +:+ str_of_Z thread_id +:+ "_" +:+ upc).

(** The [finally] block, and the like clean-up before the return. *)
Definition clean_up (temp_dir : Path) (user_data_dir : string) (ignore_temp_errors : bool)
  : M unit :=
  ex ← path_exists temp_dir;
  (if ex then rmtree temp_dir ignore_temp_errors else ret tt);;
  let user_data_path := PathOps.of_str user_data_dir in
  has_profile ← path_exists user_data_path;
  if has_profile then rmtree user_data_path true else ret tt.

(** The body of the outer [try] of [download_and_rename]. *)
Definition download_and_rename_body
    (upc image_url output_dir : string) (debug : bool) (thread_id : Z)
    (category : option string) : M (bool * string) :=
  let target_dir := target_of output_dir category in
  mkdir_parents target_dir;;
  existing ← check_existing_file output_dir upc category;
  match existing with
  | Some e => ret (true, "Skipped (already exists: " +:+ PathOps.name e +:+ ")")
  | None =>
      let temp_dir := temp_dir_of output_dir thread_id upc in
      mkdir_parents temp_dir;;
      let user_data_dir := user_data_dir_of thread_id upc in
      try_finally
        (downloaded_file ←
           call_engine (mkEngineArgs image_url (PathOps.to_str temp_dir) debug
                                     user_data_dir upc);
         there ← match downloaded_file with
                 | Some f => path_exists f
                 | None => ret false
                 end;
         match downloaded_file, there with
         | Some f, true =>
             let extension := PathOps.suffix f in
             let final_path := target_dir // (upc +:+ extension) in
             shutil_move f final_path;;
             clean_up temp_dir user_data_dir false;;
             ret (true, "Downloaded as " +:+ PathOps.name final_path)
         | _, _ => ret (false, "Download failed - no file returned")
         end)
        (clean_up temp_dir user_data_dir true)
  end.

Definition download_and_rename
    (upc image_url output_dir : string) (debug : bool) (thread_id : Z)
    (category : option string) : M (bool * string) :=
  emit (EvPipeline upc thread_id);;
  try_except
    (download_and_rename_body upc image_url output_dir debug thread_id category)
    (λ e, ret (false, "Error: " +:+ e)).

(** [create_failed_excel]; [excel_file] is not used by the code. *)
Definition create_failed_excel (df_failed : list string * list Series)
    (output_dir excel_file : string) : M (option Path) :=
  if Pandas.empty df_failed.1 df_failed.2 then ret None
  else
    let output_path := PathOps.of_str output_dir in
    (* [output_path.name if output_path.name else output_path.parts[-1]] *)
    dir_name ← (if Str.truthy (PathOps.name output_path) then ret (PathOps.name output_path)
                else if anchor output_path then ret "/"
                else raise (Exception "tuple index out of range"));
    let failed_excel_path := cwd env // ("failed_" +:+ dir_name +:+ ".xlsx") in
    to_excel df_failed.1 df_failed.2 failed_excel_path;;
    ret (Some failed_excel_path).

(** [df['UPC'].astype(str).str.strip()] of one row. *)
Definition upc_key (r : Series) : string :=
  Str.strip (Pandas.str (Pandas.at_ r "UPC")).

Definition remove_successful_from_failed_excel (failed_excel_path : Path)
    (successful_upcs : gset string) : M unit :=
  there ← sheet_exists failed_excel_path;
  if negb there then ret tt
  else
    try_except
      (df ← read_excel failed_excel_path;
       (if bool_decide ("UPC" ∈ df_columns df) then ret tt
        else raise (Exception "'UPC'"));;
       let df_remaining :=
         List.filter (λ r, negb (bool_decide (upc_key r ∈ successful_upcs)))
                     (map snd (df_rows df)) in
       if Pandas.empty (df_columns df) df_remaining then
         unlink failed_excel_path;;
         emit (EvPruned (PathOps.name failed_excel_path) 0)
       else
         to_excel (df_columns df) df_remaining failed_excel_path;;
         emit (EvPruned (PathOps.name failed_excel_path) (length df_remaining)))
      (λ e, emit (EvWarning e)).

(** What both loops read from a row. *)
Definition row_fields (has_category : bool) (row : Series)
  : string * string * option string :=
  (Str.strip (Pandas.str (Pandas.at_ row "UPC")),
   Str.strip (Pandas.str (Pandas.at_ row "IMAGES LINK")),
   if has_category && Pandas.notna (Pandas.get row "CATEGORY")
   then Some (Str.strip (Pandas.str (Pandas.at_ row "CATEGORY")))
   else None).

(** The tally of one result; both loops have this text. *)
Definition tally (upc url : string) (row_data : Series) (success : bool)
    (message : string) (acc : DownloadStats * gset string)
  : M (DownloadStats * gset string) :=
  if success then
    if Str.contains "Skipped" message then
      emit (EvReport Skipped upc message);;
      ret (add_skipped acc.1, acc.2)
    else
      emit (EvReport Completed upc message);;
      ret (add_completed acc.1, {[upc]} ∪ acc.2)
  else
    emit (EvReport Failed upc message);;
    ret (add_failed acc.1 upc url message row_data, acc.2).

Definition _process_single_threaded (df : DataFrame) (output_dir : string)
    (debug has_category : bool) (stats : DownloadStats)
    (successful_upcs : gset string) : M (DownloadStats * gset string) :=
  for_each (df_rows df)
    (λ item acc,
       let '(upc, url, category) := row_fields has_category item.2 in
       '(success, message) ← download_and_rename upc url output_dir debug 0 category;
       tally upc url item.2 success message acc)
    (stats, successful_upcs).

(** A submitted task and what its future holds in the end. *)
Record Task := mkTask {
  t_idx : Z;
  t_upc : string;
  t_url : string;
  t_category : option string;
  t_thread_id : Z
}.

Inductive FutureResult :=
| FutValue (v : bool * string)   (* the task returned *)
| FutRaised (e : Exn).           (* the task raised *)

(** The pool runs a task in a worker and keeps what it returns or raises
    in the future. *)
Definition run_task (output_dir : string) (debug : bool) (t : Task) : M FutureResult := λ w,
  match download_and_rename (t_upc t) (t_url t) output_dir debug (t_thread_id t)
                            (t_category t) w with
  | (w', inr v) => (w', inr (FutValue v))
  | (w', inl e) => (w', inr (FutRaised e))
  end.

(** [future.result()] *)
Definition future_result (r : FutureResult) : M (bool * string) :=
  match r with
  | FutValue v => ret v
  | FutRaised e => raise e
  end.

(** [df.loc[idx]] *)
Fixpoint loc (rs : list (Z * Series)) (idx : Z) : Series :=
  match rs with
  | [] => []
  | (i, r) :: rs' => if Z.eqb i idx then r else loc rs' idx
  end.

(** The body of the [as_completed] loop. *)
Definition on_completed (df : DataFrame) (fut : Task * FutureResult)
    (acc : DownloadStats * gset string) : M (DownloadStats * gset string) :=
  let t := fut.1 in
  try_except
    ('(success, message) ← future_result fut.2;
     let row_data := loc (df_rows df) (t_idx t) in
     tally (t_upc t) (t_url t) row_data success message acc)
    (λ e,
       let row_data := loc (df_rows df) (t_idx t) in
       emit (EvReport Failed (t_upc t) ("Exception: " +:+ e));;
       ret (add_failed acc.1 (t_upc t) (t_url t) e row_data, acc.2)).

(** The pool, with its interleaving at the grain of whole tasks: the
    submitted tasks run one at a time in the order the pool picks, and
    the futures are handed back by [as_completed] in the order it picks.
    The statistics are touched by this main loop only. *)
Definition _process_multi_threaded (df : DataFrame) (output_dir : string)
    (debug has_category : bool) (stats : DownloadStats)
    (successful_upcs : gset string) (threads : Z)
  : M (DownloadStats * gset string) :=
  if threads <=? 0 then raise (Exception "max_workers must be greater than 0")
  else
    w0 ← get_world;
    let tasks :=
      map (λ item : Z * Series,
             let '(upc, url, category) := row_fields has_category item.2 in
             mkTask item.1 upc url category (item.1 `mod` threads))
          (df_rows df) in
    futures ← for_each (reorder (pool_picks env w0).1 tasks)
                 (λ t done, r ← run_task output_dir debug t; ret (done ++ [(t, r)]))
                 [];
    for_each (reorder (pool_picks env w0).2 futures) (on_completed df)
             (stats, successful_upcs).

(** [process_excel] in two halves: [run_round] is the function to its
    [stats.print_summary()], and gives the two objects the loops have
    filled; [finish_round] is the rest, from "Handle failed downloads". *)
Definition run_round (excel_file output_dir : string) (threads : Z)
    (debug no_categories : bool) : M (DownloadStats * gset string) :=
  emit (EvReading excel_file);;
  df ← try_except (read_excel (PathOps.of_str excel_file))
                  (λ e, emit (EvError ("Error reading Excel file: " +:+ e));; sys_exit 1);
  let excel_path := PathOps.of_str excel_file in
  let is_retry := Str.startswith "failed_" (PathOps.name excel_path) in
  (if is_retry then emit (EvNote "Retrying failed downloads...") else ret tt);;
  if negb (forallb (λ col, bool_decide (col ∈ df_columns df)) ["UPC"; "IMAGES LINK"]) then
    emit (EvError "Excel file must contain 'UPC' and 'IMAGES LINK' columns");;
    sys_exit 1
  else
    let has_category := bool_decide ("CATEGORY" ∈ df_columns df) && negb no_categories in
    let df := Pandas.dropna ["UPC"; "IMAGES LINK"] df in
    let output_path := PathOps.of_str output_dir in
    mkdir_parents output_path;;
    let stats := set_total DownloadStats_new (Z.of_nat (length (df_rows df))) in
    let successful_upcs : gset string := ∅ in
    r ← (if threads =? 1 then
           _process_single_threaded df output_dir debug has_category stats successful_upcs
         else
           _process_multi_threaded df output_dir debug has_category stats successful_upcs
                                   threads);
    emit (EvSummary r.1);;
    ret r.

Definition finish_round (excel_file output_dir : string)
    (r : DownloadStats * gset string) : M (option Path) :=
  let stats := r.1 in
  let successful_upcs := r.2 in
  let excel_path := PathOps.of_str excel_file in
  let is_retry := Str.startswith "failed_" (PathOps.name excel_path) in
  failed_excel_path ←
    match failed stats with
    | [] => ret None
    | _ =>
        let failed_rows := map f_row_data (failed stats) in
        let df_failed := Pandas.of_dicts failed_rows in
        failed_excel_path ← create_failed_excel df_failed output_dir excel_file;
        match failed_excel_path with
        | Some p => emit (EvSaved p)
        | None => ret tt
        end;;
        ret failed_excel_path
    end;
  (if is_retry && negb (bool_decide (successful_upcs = ∅)) then
     remove_successful_from_failed_excel excel_path successful_upcs
   else ret tt);;
  ret (match failed stats with [] => None | _ => failed_excel_path end).

Definition process_excel (excel_file output_dir : string) (threads : Z)
    (debug no_categories : bool) : M (option Path) :=
  r ← run_round excel_file output_dir threads debug no_categories;
  finish_round excel_file output_dir r.

(** ** [cli.py] *)

(** The command line, as [argparse] has split it: each option is absent
    or present, [--retry] with or without a number. *)
Record CommandLine := mkCommandLine {
  cl_excel_file : string;
  cl_output_dir : string;
  cl_threads : option Z;
  cl_retry : option (option Z);
  cl_debug : bool;
  cl_no_categories : bool
}.

Record Namespace := mkArgs {
  excel_file : string;
  output_dir : string;
  threads : Z;
  retry : Z;
  debug : bool;
  no_categories : bool
}.

(** [parse_args]: [--threads] has [default=1]; [--retry] has
    [nargs='?'], [const=-1], [default=0]. *)
Definition parse_args (cl : CommandLine) : Namespace :=
  mkArgs (cl_excel_file cl) (cl_output_dir cl)
         (match cl_threads cl with Some n => n | None => 1 end)
         (match cl_retry cl with
          | None => 0
          | Some None => -1
          | Some (Some n) => n
          end)
         (cl_debug cl) (cl_no_categories cl).

Definition set_retry (args : Namespace) (n : Z) : Namespace :=
  mkArgs (excel_file args) (output_dir args) (threads args) n (debug args)
         (no_categories args).

Definition set_debug (args : Namespace) (b : bool) : Namespace :=
  mkArgs (excel_file args) (output_dir args) (threads args) (retry args) b
         (no_categories args).

Fixpoint lower (s : string) : string :=
  match s with
  | String c s' =>
      let n := nat_of_ascii c in
      String (if ((65 <=? n) && (n <=? 90))%nat then ascii_of_nat (n + 32) else c) (lower s')
  | EmptyString => EmptyString
  end.

Definition validate_inputs (args : Namespace) : M Path :=
  let excel_path := PathOps.of_str (excel_file args) in
  there ← sheet_exists excel_path;
  if negb there then
    emit (EvError "Excel file not found");; sys_exit 1
  else if negb (bool_decide (lower (PathOps.suffix excel_path) ∈ [".xlsx"; ".xls"])) then
    emit (EvError "File must be an Excel file (.xlsx or .xls)");; sys_exit 1
  else if threads args <? 1 then
    emit (EvError "Threads must be at least 1");; sys_exit 1
  else if retry args <? -1 then
    emit (EvError "Retry value must be -1 (unlimited), 0 (disabled), or a positive number");;
    sys_exit 1
  else ret excel_path.

Definition _print_retry_hint (failed_excel_path : Path) (args : Namespace) : M unit :=
  emit (EvHint (PathOps.name failed_excel_path)).

(** ["=" * 60] *)
Definition separator_line : string :=
  "============================================================".

(** [run_with_retry] and [_handle_interactive_retry] call each other, and
    each has a [while True] loop; every turn of a loop takes one unit of
    fuel.  [run_with_retry_from] is the loop of [run_with_retry] with its
    two variables; [_handle_interactive_retry] is the loop of that
    function, whose one line before the loop (the separator) is printed
    where it is called. *)
Fixpoint run_with_retry_from (fuel : nat) (args : Namespace) (current_file : string)
    (retry_count : Z) : M unit :=
  match fuel with
  | O => raise OutOfFuel
  | S fuel' =>
      let max_retries := retry args in
      failed_excel_path ← process_excel current_file (output_dir args) (threads args)
                                        (debug args) (no_categories args);
      match failed_excel_path with
      | None => emit EvAllDone
      | Some failed_excel_path =>
          if negb (max_retries =? 0) then
            let retry_count := retry_count + 1 in
            if (0 <? max_retries) && (max_retries <? retry_count) then
              emit (EvLimit max_retries (PathOps.name failed_excel_path));;
              _print_retry_hint failed_excel_path args
            else
              emit (EvAutoRetry retry_count max_retries);;
              run_with_retry_from fuel' args (PathOps.to_str failed_excel_path) retry_count
          else
            emit (EvNote separator_line);;
            _handle_interactive_retry fuel' failed_excel_path args
      end
  end
with _handle_interactive_retry (fuel : nat) (failed_excel_path : Path) (args : Namespace)
  : M unit :=
  match fuel with
  | O => raise OutOfFuel
  | S fuel' =>
      line ← input_;
      let response := Str.upper (Str.strip line) in
      if bool_decide (response ∈ ["Y"; "YES"]) then
        emit (EvNote "Retrying failed downloads...");;
        run_with_retry_from fuel' (set_retry args (-1))
                            (PathOps.to_str failed_excel_path) 0
      else if bool_decide (response ∈ ["D"; "DEBUG"]) then
        emit (EvNote "Retrying failed downloads with DEBUG mode enabled...");;
        run_with_retry_from fuel' (set_retry (set_debug args true) (-1))
                            (PathOps.to_str failed_excel_path) 0
      else if bool_decide (response ∈ ["N"; "NO"]) then
        emit (EvNote "Exiting. You can retry later by running:");;
        _print_retry_hint failed_excel_path args
      else
        emit (EvNote "Please enter Y (yes), N (no), or D (debug mode).");;
        _handle_interactive_retry fuel' failed_excel_path args
  end.

Definition run_with_retry (fuel : nat) (args : Namespace) (excel_path : Path) : M unit :=
  run_with_retry_from fuel args (PathOps.to_str excel_path) 0.

Definition main (fuel : nat) (cl : CommandLine) : M unit :=
  let args := parse_args cl in
  excel_path ← validate_inputs args;
  run_with_retry fuel args excel_path.

End Program.

(** ** What a trace shows *)

(** The rounds started, the prompts shown, the items handed to the
    pipeline and the engine's calls, newest first. *)
Definition rounds_of (tr : list Event) : nat :=
  length (List.filter (λ e, match e with EvReading _ => true | _ => false end) tr).

Definition prompts_of (tr : list Event) : nat :=
  length (List.filter (λ e, match e with EvPrompt => true | _ => false end) tr).

Definition pipeline_calls (tr : list Event) : list string :=
  omap (λ e, match e with EvPipeline upc _ => Some upc | _ => None end) tr.

Definition engine_calls (tr : list Event) : list EngineArgs :=
  omap (λ e, match e with EvEngine a => Some a | _ => None end) tr.

Definition summaries_of (tr : list Event) : list DownloadStats :=
  omap (λ e, match e with EvSummary s => Some s | _ => None end) tr.

Definition reports_of (tr : list Event) : list (Outcome * string) :=
  omap (λ e, match e with EvReport o upc _ => Some (o, upc) | _ => None end) tr.

Definition completed_ids (tr : list Event) : list string :=
  omap (λ e, match e with EvReport Completed upc _ => Some upc | _ => None end) tr.

(** ** The vocabulary of the properties *)

(** Events of the engine alone, and events of the work on items. *)
Definition is_engine_event (e : Event) : bool :=
  match e with EvEngine _ => true | _ => false end.

Definition is_item_event (e : Event) : bool :=
  match e with
  | EvPipeline _ _ | EvEngine _ | EvReport _ _ _ => true
  | _ => false
  end.

(** A computation that touches the output tree only, adds nothing but
    engine calls to the trace, each called as [P] says, and raises
    nothing but [Exception]. *)
Definition quiet (P : EngineArgs → Prop) {A} (m : M A) : Prop :=
  ∀ w w' r, m w = (w', r) →
    sheets w' = sheets w ∧ stdin w' = stdin w ∧
    (∃ evs, trace w' = evs ++ trace w ∧ forallb is_engine_event evs = true ∧
            Forall P (engine_calls evs)) ∧
    (∀ e, r = inl e → ∃ msg, e = Exception msg).

(** The number of results a statistics object has counted. *)
Definition counted (s : DownloadStats) : Z :=
  completed s + skipped s + Z.of_nat (length (failed s)).

(** Every node of the tree lies in a directory. *)
Definition wf_tree (t : Tree) : bool :=
  forallb (λ e, TreeOps.is_dir t (PathOps.parent e.1)) t.

(** What the work on some items does: the spreadsheets and the terminal
    are left alone, [n] results are counted, the pipeline is entered for
    the ids [handed], the set of successful ids grows by those reported
    as completed, and a new failure carries one of the rows [pool]. *)
Definition items_done (pool : list Series) (handed : list string) (n : nat) (w : World)
    (acc : DownloadStats * gset string) (w' : World)
    (acc' : DownloadStats * gset string) : Prop :=
  sheets w' = sheets w ∧ stdin w' = stdin w ∧
  total acc'.1 = total acc.1 ∧
  counted acc'.1 = counted acc.1 + Z.of_nat n ∧
  ∃ evs, trace w' = evs ++ trace w ∧ forallb is_item_event evs = true ∧
         pipeline_calls evs = handed ∧ length (reports_of evs) = n ∧
         (∀ u, u ∈ acc'.2 ↔ u ∈ acc.2 ∨ u ∈ completed_ids evs) ∧
         (∀ fi, fi ∈ failed acc'.1 → fi ∈ failed acc.1 ∨ f_row_data fi ∈ pool).

(** The rows of a manifest that a round works on. *)
Definition manifest_rows (sh : Sheet) : list (Z * Series) :=
  df_rows (Pandas.dropna ["UPC"; "IMAGES LINK"] (Pandas.of_sheet sh)).

(** [p.mkdir(parents=True, exist_ok=True)] would succeed on the tree. *)
Definition mkdir_ok (env : Env) (p : Path) (t : Tree) : bool :=
  match mkdir_walk (anchor (abs_path env p)) [] (comps (abs_path env p)) t with
  | (_, None) => true
  | (_, Some _) => false
  end.

(** The lines a round prints before it starts on the items. *)
Definition round_header (excel_file : string) : list Event :=
  (if Str.startswith "failed_" (PathOps.name (PathOps.of_str excel_file))
   then [EvNote "Retrying failed downloads..."] else [])
  ++ [EvReading excel_file].

(** The one call of the engine that the pipeline makes for an item. *)
Definition engine_call_of (env : Env) (upc image_url output_dir : string) (dbg : bool)
    (thread_id : Z) : EngineArgs :=
  mkEngineArgs image_url (PathOps.to_str (temp_dir_of output_dir thread_id upc)) dbg
               (user_data_dir_of env thread_id upc) upc.

(** The first regular file directly inside [d] whose name without its
    extension is [upc], in scan order. *)
Definition first_regular_file (t : Tree) (d : Path) (upc : string) : option Path :=
  fst <$> List.find (λ e, TreeOps.is_file t e.1 && String.eqb (PathOps.stem e.1) upc)
                    (TreeOps.children t d).

(** The path below [d] of an entry of [d]. *)
Definition entry_in (d f : Path) : Path :=
  mkPath (anchor d) (comps d ++ [PathOps.name f]).

(** The name the retrieved file [f] gets in the target directory. *)
Definition final_name (output_dir : string) (category : option string) (upc : string)
    (f : Path) : string :=
  PathOps.name (target_of output_dir category // (upc +:+ PathOps.suffix f)).

(** A computation that leaves the terminal alone and adds to the trace
    neither the start of a round nor a prompt. *)
Definition calm {A} (m : M A) : Prop :=
  ∀ w w' r, m w = (w', r) →
    stdin w' = stdin w ∧
    ∃ evs, trace w' = evs ++ trace w ∧ rounds_of evs = 0%nat ∧ prompts_of evs = 0%nat.

(** The rows of a sheet that stay when the ids [successful] are pruned,
    and the store after the pruning of the sheet at [p]. *)
Definition remaining_rows (successful : gset string) (sh : Sheet) : list Series :=
  List.filter (λ r, negb (bool_decide (upc_key r ∈ successful)))
              (map snd (df_rows (Pandas.of_sheet sh))).

Definition prune_sheets (p : Path) (successful : gset string) (m : gmap Path Sheet)
  : gmap Path Sheet :=
  match m !! p with
  | None => m
  | Some sh =>
      if bool_decide ("UPC" ∈ columns sh) then
        if Pandas.empty (columns sh) (remaining_rows successful sh) then delete p m
        else <[p := Pandas.to_sheet (columns sh) (remaining_rows successful sh)]> m
      else m
  end.

(** Where the failed-subset manifest of an output directory goes; the
    code has no name for the relative directory without components. *)
Definition failed_excel_path_of (env : Env) (output_dir : string) : option Path :=
  let output_path := PathOps.of_str output_dir in
  if Str.truthy (PathOps.name output_path) then
    Some (cwd env // ("failed_" +:+ PathOps.name output_path +:+ ".xlsx"))
  else if anchor output_path then Some (cwd env // ("failed_" +:+ "/" +:+ ".xlsx"))
  else None.

(** The failed-subset manifest of a round's failures. *)
Definition failed_sheet (fs : list FailedItem) : Sheet :=
  Pandas.to_sheet (Pandas.of_dicts (map f_row_data fs)).1
                  (Pandas.of_dicts (map f_row_data fs)).2.

(** The item with the row [row] fails in a round and in each of the [n]
    rounds that follow it when the coordinator retries: every one of
    these rounds runs to its summary, records a failure with this row
    and does not report the row's id as completed, and every round but
    the last ends with a failed-subset manifest, from which the next
    round starts. *)
Fixpoint fails_every_round (env : Env) (row : Series) (n : nat) (args : Namespace)
    (current_file : string) (retry_count : Z) (w : World) : bool :=
  match run_round env current_file (output_dir args) (threads args) (debug args)
                  (no_categories args) w with
  | (w1, inr r) =>
      bool_decide (row ∈ map f_row_data (failed r.1)) &&
      negb (bool_decide (upc_key row ∈ r.2)) &&
      match n with
      | O => true
      | S n' =>
          match finish_round env current_file (output_dir args) r w1 with
          | (w2, inr (Some p)) =>
              fails_every_round env row n' args (PathOps.to_str p) (retry_count + 1)
                (emit (EvAutoRetry (retry_count + 1) (retry args)) w2).1
          | _ => false
          end
      end
  | _ => false
  end.

(** The cell rows of a sheet that stay when the ids [successful] are
    pruned. *)
Definition kept_rows (successful : gset string) (sh : Sheet) : list (list Cell) :=
  List.filter (λ cells, negb (bool_decide
                 (upc_key (Pandas.series_of (columns sh) cells) ∈ successful)))
              (rows sh).

(** The store when the failures of a round have been written. *)
Definition written_sheets (env : Env) (output_dir : string) (fs : list FailedItem)
    (m : gmap Path Sheet) : gmap Path Sheet :=
  match fs, failed_excel_path_of env output_dir with
  | _ :: _, Some p => <[abs_path env p := failed_sheet fs]> m
  | _, _ => m
  end.

(** ** Sample runs *)

Definition work_dir : Path := mkPath true ["work"].

(** An engine that puts [img.png] into the staging directory and returns
    it; for the locator [bad] it returns nothing, for [boom] it raises. *)
Definition sample_engine (a : EngineArgs) (t : Tree) : Tree * (string + option Path) :=
  if String.eqb (ea_url a) "bad" then (t, inr None)
  else if String.eqb (ea_url a) "boom" then (t, inl "engine crashed")
  else
    let f := PathOps.resolve work_dir (PathOps.of_str (ea_output_dir a) // "img.png") in
    (t ++ [(f, NFile)], inr (Some f)).

Definition sample_env : Env :=
  mkEnv work_dir false "/tmp" sample_engine (λ _, ([1; 0]%nat, [2; 1]%nat)).

Definition windows_env : Env :=
  mkEnv work_dir true "C:\Temp" sample_engine (λ _, ([], [])).

Definition sample_manifest : Sheet :=
  mkSheet ["UPC"; "IMAGES LINK"]
          [[Some "A1"; Some "u1"]; [Some " A2 "; Some "bad"];
           [Some "A3"; Some "boom"]; [None; Some "u4"]].

Definition sample_world : World :=
  mkWorld [] {[ work_dir // "products.xlsx" := sample_manifest ]} ["n"] [].

Definition empty_world : World := mkWorld [] ∅ [] [].

(** A tree in which the output directory of the sample holds [A1.png]. *)
Definition tree_with_A1 : Tree :=
  [(work_dir, NDir); (work_dir // "out", NDir); (work_dir // "out/notes", NDir);
   (work_dir // "out/notes/A1.txt", NFile); (work_dir // "out/A1.png", NFile)].

Definition world_with_A1 : World := mkWorld tree_with_A1 ∅ [] [].

(** An engine whose files have the extension [.Skipped]. *)
Definition odd_engine (a : EngineArgs) (t : Tree) : Tree * (string + option Path) :=
  let f := PathOps.resolve work_dir (PathOps.of_str (ea_output_dir a) // "img.Skipped") in
  (t ++ [(f, NFile)], inr (Some f)).

Definition odd_env : Env := mkEnv work_dir false "/tmp" odd_engine (λ _, ([], [])).

Definition one_manifest : Sheet := mkSheet ["UPC"; "IMAGES LINK"] [[Some "A1"; Some "u1"]].

Definition one_world : World :=
  mkWorld [] {[ work_dir // "one.xlsx" := one_manifest ]} [] [].

(** A retry round whose one item is there already. *)
Definition retry_world : World :=
  mkWorld tree_with_A1 {[ work_dir // "failed_out.xlsx" := one_manifest ]} [] [].

(** A manifest with one item, which the sample engine never retrieves. *)
Definition stubborn_row : Series := [("UPC", Some "X"); ("IMAGES LINK", Some "bad")].

Definition stubborn_world : World :=
  mkWorld [] {[ work_dir // "x.xlsx" := mkSheet ["UPC"; "IMAGES LINK"]
                                               [[Some "X"; Some "bad"]] ]} [] [].

Definition stubborn_args : Namespace := mkArgs "x.xlsx" "out" 1 2 false false.

(** The sample invoked without any option, and its terminal one that
    accepts. *)
Definition sample_command : CommandLine :=
  mkCommandLine "products.xlsx" "out" None None false false.

Definition accepting_world : World :=
  mkWorld (tree sample_world) (sheets sample_world) ["y"] [].

(** A retry round over the sample manifest, kept under another name
    than the artifact's: [A1] completes, two items fail. *)
Definition retry_sample_world : World :=
  mkWorld [] {[ work_dir // "failed_old.xlsx" := sample_manifest ]} [] [].

Definition retry_sample_stats : DownloadStats :=
  mkStats 3 1 0
    [mkFailed "A2" "bad" "Download failed - no file returned"
              [("UPC", Some " A2 "); ("IMAGES LINK", Some "bad")];
     mkFailed "A3" "boom" "Error: engine crashed"
              [("UPC", Some "A3"); ("IMAGES LINK", Some "boom")]].

Definition retry_sample_kept : Sheet :=
  mkSheet ["UPC"; "IMAGES LINK"]
          [[Some " A2 "; Some "bad"]; [Some "A3"; Some "boom"]; [None; Some "u4"]].

(** Scenario A of the specification: three items, the engine fails for
    the second only. *)
Definition scenario_A_world : World :=
  mkWorld [] {[ work_dir // "a.xlsx" :=
                  mkSheet ["UPC"; "IMAGES LINK"]
                          [[Some "A1"; Some "u1"]; [Some "A2"; Some "bad"];
                           [Some "A3"; Some "u3"]] ]} [] [].

(** A manifest that names one id twice. *)
Definition twice_manifest : Sheet :=
  mkSheet ["UPC"; "IMAGES LINK"] [[Some "A1"; Some "u1"]; [Some "A1"; Some "u1"]].

Definition twice_world : World :=
  mkWorld [] {[ work_dir // "twice.xlsx" := twice_manifest ]} [] [].

(** * Properties *)

(** ** The string and path functions on examples *)

Example strip_ex : Str.strip "  A1 " = "A1".
Proof. reflexivity. Qed.
Example str_of_Z_ex : str_of_Z 12 = "12".
Proof. vm_compute. reflexivity. Qed.
Example of_str_ex : PathOps.of_str "out/./imgs/" = mkPath false ["out"; "imgs"].
Proof. reflexivity. Qed.
Example stem_hidden_ex : PathOps.stem (PathOps.of_str ".tmp_0_A1") = ".tmp_0_A1".
Proof. reflexivity. Qed.
Example reorder_ex : reorder [2; 0; 5]%nat ["a"; "b"; "c"; "d"] = ["c"; "a"; "d"; "b"].
Proof. reflexivity. Qed.
Example contains_ex : Str.contains "Skipped" "Skipped (already exists: A1.png)" = true.
Proof. reflexivity. Qed.
Example stem_ex : PathOps.stem (PathOps.of_str "out/A1.png") = "A1".
Proof. reflexivity. Qed.
Example suffix_ex : PathOps.suffix (PathOps.of_str "x/photo.tar.gz") = ".gz".
Proof. reflexivity. Qed.

(** ** The monad and the operating-system calls *)

Lemma engine_calls_app a b : engine_calls (a ++ b) = engine_calls a ++ engine_calls b.
Proof. apply omap_app. Qed.

Lemma quiet_ret P {A} (a : A) : quiet P (ret a).
Proof.
  intros w w' r [= <- <-]. split_and!; [done | done | by exists [] | discriminate].
Qed.

Lemma quiet_raise P {A} msg : quiet P (raise (A:=A) (Exception msg)).
Proof.
  intros w w' r [= <- <-].
  split_and!; [done | done | by exists [] | intros e [= <-]; eauto].
Qed.

Lemma quiet_trace_app P (w w1 w2 : World) evs evs2 :
  trace w1 = evs ++ trace w → forallb is_engine_event evs = true →
  Forall P (engine_calls evs) →
  trace w2 = evs2 ++ trace w1 → forallb is_engine_event evs2 = true →
  Forall P (engine_calls evs2) →
  ∃ evs0, trace w2 = evs0 ++ trace w ∧ forallb is_engine_event evs0 = true ∧
          Forall P (engine_calls evs0).
Proof.
  intros Ht Hev HP Ht2 Hev2 HP2. exists (evs2 ++ evs).
  rewrite Ht2, Ht, forallb_app, Hev, Hev2, engine_calls_app.
  split_and!; [by rewrite app_assoc | done | by apply Forall_app].
Qed.

Lemma quiet_bind P {A B} (m : M A) (f : A → M B) :
  quiet P m → (∀ a, quiet P (f a)) → quiet P (bind m f).
Proof.
  intros Hm Hf w w' r. unfold bind.
  destruct (m w) as [w1 [e|a]] eqn:E;
    destruct (Hm _ _ _ E) as (Hs & Hi & (evs & Ht & Hev & HP) & He).
  - intros [= <- <-]. split_and!; [done | done | by exists evs |].
    intros e0 [= <-]. by apply (He e).
  - intros E2. destruct (Hf _ _ _ _ E2) as (Hs2 & Hi2 & (evs2 & Ht2 & Hev2 & HP2) & He2).
    split_and!; [congruence | congruence | by eapply quiet_trace_app | done].
Qed.

Lemma quiet_try_finally P {A} (m : M A) (fin : M unit) :
  quiet P m → quiet P fin → quiet P (try_finally m fin).
Proof.
  intros Hm Hf w w' r. unfold try_finally.
  destruct (m w) as [w1 r1] eqn:E.
  destruct (Hm _ _ _ E) as (Hs & Hi & (evs & Ht & Hev & HP) & He).
  destruct (fin w1) as [w2 r2] eqn:E2.
  destruct (Hf _ _ _ E2) as (Hs2 & Hi2 & (evs2 & Ht2 & Hev2 & HP2) & He2).
  pose proof (quiet_trace_app P w w1 w2 evs evs2 Ht Hev HP Ht2 Hev2 HP2) as Htr.
  destruct r2 as [e|[]]; intros [= <- <-]; (split_and!; [congruence | congruence | done |]).
  - intros e0 [= <-]. by apply He2.
  - done.
Qed.

(** A computation that only reads the tree, or changes nothing else. *)
Lemma quiet_tree P {A} (m : M A) :
  (∀ w, ∃ t r, m w = (mkWorld t (sheets w) (stdin w) (trace w), r) ∧
               ∀ e, r = inl e → ∃ msg, e = Exception msg) →
  quiet P m.
Proof.
  intros H w w' r E. destruct (H w) as (t & r' & E' & He).
  rewrite E in E'. injection E' as -> ->. split_and!; [done | done | by exists [] | done].
Qed.

Section OsCalls.

Context (env : Env) (P : EngineArgs → Prop).

Lemma same_world w : mkWorld (tree w) (sheets w) (stdin w) (trace w) = w.
Proof. by destruct w. Qed.

Ltac tree_only :=
  apply quiet_tree; intros w;
  repeat match goal with
         | |- context [match ?x with _ => _ end] => destruct x
         end;
  cbn; eexists _, _; (split; [first [reflexivity | by rewrite same_world] |]);
  first [discriminate | intros ? [= <-]; eauto].

Lemma quiet_path_exists p : quiet P (path_exists env p).
Proof. unfold path_exists. tree_only. Qed.

Lemma quiet_path_is_file p : quiet P (path_is_file env p).
Proof. unfold path_is_file. tree_only. Qed.

Lemma quiet_mkdir_parents p : quiet P (mkdir_parents env p).
Proof. unfold mkdir_parents, bind, set_tree, raise. tree_only. Qed.

Lemma quiet_iterdir p : quiet P (iterdir env p).
Proof. unfold iterdir. tree_only. Qed.

Lemma quiet_shutil_move src dst : quiet P (shutil_move env src dst).
Proof. unfold shutil_move, set_tree. tree_only. Qed.

Lemma quiet_rmtree p b : quiet P (rmtree env p b).
Proof. unfold rmtree, set_tree. tree_only. Qed.

Lemma quiet_call_engine a : P a → quiet P (call_engine env a).
Proof.
  intros Ha w w' r. unfold call_engine.
  destruct (download_first_file env a (tree w)) as [t [msg|o]]; intros [= <- <-]; cbn;
    (split_and!; [done | done | exists [EvEngine a]; split_and!; [done | done | by constructor] |]);
    [intros e [= <-]; eauto | discriminate].
Qed.

End OsCalls.

Lemma bind_inr {A B} (m : M A) (f : A → M B) w w' b :
  bind m f w = (w', inr b) → ∃ w1 a, m w = (w1, inr a) ∧ f a w1 = (w', inr b).
Proof. unfold bind. destruct (m w) as [w1 [e|a]]; [discriminate | eauto]. Qed.

Lemma try_finally_inr {A} (m : M A) (fin : M unit) w w' b :
  try_finally m fin w = (w', inr b) → ∃ w1, m w = (w1, inr b).
Proof.
  unfold try_finally. destruct (m w) as [w1 r]. destruct (fin w1) as [w2 [e|u]];
    [discriminate |]. intros [= _ ->]. eauto.
Qed.

Create HintDb quiet.
#[global] Hint Resolve quiet_ret quiet_raise quiet_path_exists quiet_path_is_file
  quiet_mkdir_parents quiet_iterdir quiet_shutil_move quiet_rmtree quiet_call_engine
  : quiet.

Ltac quiet_steps :=
  repeat first
    [ solve [eauto with quiet]
    | match goal with
      | |- quiet _ (if ?b then _ else _) => destruct b
      | |- quiet _ (match ?x with _ => _ end) => destruct x
      | |- quiet _ (bind _ _) => apply quiet_bind; [| intros ?]
      | |- quiet _ (try_finally _ _) => apply quiet_try_finally
      end ].

(** ** The per-item pipeline *)

Section Pipeline.

Context (env : Env).

Lemma quiet_first_match P files upc : quiet P (first_match env files upc).
Proof. induction files as [|f files IH]; cbn; quiet_steps. Qed.

Lemma quiet_check_existing_file P output_dir upc category :
  quiet P (check_existing_file env output_dir upc category).
Proof. unfold check_existing_file. quiet_steps. apply quiet_first_match. Qed.

Lemma quiet_clean_up P temp_dir user_data_dir b :
  quiet P (clean_up env temp_dir user_data_dir b).
Proof. unfold clean_up. quiet_steps. Qed.

Lemma quiet_download_and_rename_body upc image_url output_dir dbg thread_id category :
  quiet (eq (engine_call_of env upc image_url output_dir dbg thread_id))
        (download_and_rename_body env upc image_url output_dir dbg thread_id category).
Proof.
  unfold download_and_rename_body.
  pose proof quiet_check_existing_file. pose proof quiet_clean_up.
  pose proof (quiet_call_engine env (eq (engine_call_of env upc image_url output_dir dbg thread_id))
                _ eq_refl).
  quiet_steps.
Qed.

(** What one run of the pipeline does to the world: it never raises,
    leaves the spreadsheets and the terminal alone, and adds its entry
    and engine calls to the trace. *)
Lemma download_and_rename_run upc image_url output_dir dbg thread_id category w :
  ∃ w' v evs,
    download_and_rename env upc image_url output_dir dbg thread_id category w = (w', inr v) ∧
    sheets w' = sheets w ∧ stdin w' = stdin w ∧
    trace w' = evs ++ EvPipeline upc thread_id :: trace w ∧
    forallb is_engine_event evs = true ∧
    Forall (eq (engine_call_of env upc image_url output_dir dbg thread_id)) (engine_calls evs).
Proof.
  unfold download_and_rename, bind, emit, try_except.
  match goal with
  | |- context [download_and_rename_body ?e ?a ?b ?c ?d ?f ?g ?w0] =>
      destruct (download_and_rename_body e a b c d f g w0) as [w1 r] eqn:E
  end.
  destruct (quiet_download_and_rename_body _ _ _ _ _ _ _ _ _ E)
    as (Hs & Hi & (evs & Ht & Hev & HP) & He).
  cbn in Hs, Hi, Ht.
  destruct r as [e|v].
  - destruct (He e eq_refl) as [msg ->]. by exists w1, (false, "Error: " +:+ msg), evs.
  - by exists w1, v, evs.
Qed.

End Pipeline.

(** ** Reading a trace *)

Lemma rounds_of_app a b : rounds_of (a ++ b) = (rounds_of a + rounds_of b)%nat.
Proof. unfold rounds_of. by rewrite List.filter_app, length_app. Qed.

Lemma prompts_of_app a b : prompts_of (a ++ b) = (prompts_of a + prompts_of b)%nat.
Proof. unfold prompts_of. by rewrite List.filter_app, length_app. Qed.

Lemma pipeline_calls_app a b : pipeline_calls (a ++ b) = pipeline_calls a ++ pipeline_calls b.
Proof. apply omap_app. Qed.

Lemma summaries_of_app a b : summaries_of (a ++ b) = summaries_of a ++ summaries_of b.
Proof. apply omap_app. Qed.

Lemma reports_of_app a b : reports_of (a ++ b) = reports_of a ++ reports_of b.
Proof. apply omap_app. Qed.

Lemma completed_ids_app a b : completed_ids (a ++ b) = completed_ids a ++ completed_ids b.
Proof. apply omap_app. Qed.

Lemma engine_events_are_item_events evs :
  forallb is_engine_event evs = true → forallb is_item_event evs = true.
Proof.
  induction evs as [|[] evs IH]; cbn; try done.
Qed.

Lemma engine_events_no_pipeline evs :
  forallb is_engine_event evs = true →
  pipeline_calls evs = [] ∧ completed_ids evs = [] ∧ reports_of evs = [].
Proof.
  induction evs as [|[] evs IH]; cbn; try done.
Qed.

Lemma item_events_between_rounds evs :
  forallb is_item_event evs = true →
  rounds_of evs = 0%nat ∧ prompts_of evs = 0%nat ∧ summaries_of evs = [].
Proof.
  induction evs as [|[] evs IH]; cbn; try done.
Qed.

Lemma round_header_events excel_file :
  rounds_of (round_header excel_file) = 1%nat ∧
  prompts_of (round_header excel_file) = 0%nat ∧
  pipeline_calls (round_header excel_file) = [] ∧
  engine_calls (round_header excel_file) = [] ∧
  summaries_of (round_header excel_file) = [].
Proof.
  unfold round_header.
  by destruct (Str.startswith "failed_" (PathOps.name (PathOps.of_str excel_file))).
Qed.

(** ** The two loops over the items *)

Section Loops.

Context (env : Env).

Lemma items_done_refl pool w acc : items_done pool [] 0 w acc w acc.
Proof.
  unfold items_done. split_and!; try done; [unfold counted; lia |].
  exists []. split_and!; try done.
  - intros u. cbn. rewrite elem_of_nil. tauto.
  - intros fi Hfi. by left.
Qed.

Lemma items_done_trans pool h1 n1 h2 n2 w acc w1 acc1 w2 acc2 :
  items_done pool h1 n1 w acc w1 acc1 → items_done pool h2 n2 w1 acc1 w2 acc2 →
  items_done pool (h2 ++ h1) (n1 + n2) w acc w2 acc2.
Proof.
  intros (Hs & Hi & Ht & Hc & evs & Htr & Hev & Hp & Hr & Hsucc & Hf)
         (Hs2 & Hi2 & Ht2 & Hc2 & evs2 & Htr2 & Hev2 & Hp2 & Hr2 & Hsucc2 & Hf2).
  unfold items_done. split_and!; [congruence | congruence | congruence | lia |].
  exists (evs2 ++ evs). split_and!.
  - rewrite Htr2, Htr. by rewrite app_assoc.
  - by rewrite forallb_app, Hev, Hev2.
  - by rewrite pipeline_calls_app, Hp, Hp2.
  - rewrite reports_of_app, length_app. lia.
  - intros u. rewrite Hsucc2, Hsucc, completed_ids_app, elem_of_app. tauto.
  - intros fi Hfi.
    destruct (Hf2 _ Hfi) as [Hfi'|?]; [destruct (Hf _ Hfi') as [?|?] |]; tauto.
Qed.

Lemma tally_run pool upc url row_data success message acc w :
  row_data ∈ pool →
  ∃ w' acc',
    tally upc url row_data success message acc w = (w', inr acc') ∧
    tree w' = tree w ∧ items_done pool [] 1 w acc w' acc'.
Proof.
  intros Hpool. unfold tally. destruct success; [destruct (Str.contains "Skipped" message) |];
    cbn; eexists _, _; (split; [reflexivity |]); (split; [reflexivity |]);
    unfold items_done; cbn; (split_and!; try done);
    try (unfold counted; cbn; rewrite ?length_app; cbn; lia);
    eexists [_]; cbn; (split_and!; try done).
  - intros u. rewrite elem_of_nil. tauto.
  - intros fi Hfi. by left.
  - intros u. rewrite elem_of_union, elem_of_singleton, list_elem_of_singleton. tauto.
  - intros fi Hfi. by left.
  - intros u. rewrite elem_of_nil. tauto.
  - intros fi [Hfi|Hfi]%elem_of_app; [by left | right].
    by apply list_elem_of_singleton in Hfi as ->.
Qed.

Lemma download_and_rename_items_done pool upc image_url output_dir dbg thread_id category
    w acc :
  ∃ w' v,
    download_and_rename env upc image_url output_dir dbg thread_id category w = (w', inr v) ∧
    items_done pool [upc] 0 w acc w' acc.
Proof.
  destruct (download_and_rename_run env upc image_url output_dir dbg thread_id category w)
    as (w' & v & evs & E & Hs & Hi & Ht & Hev & _).
  exists w', v. split; [done |].
  destruct (engine_events_no_pipeline _ Hev) as (Hp & Hc & Hr).
  unfold items_done. split_and!; try done; [unfold counted; lia |].
  exists (evs ++ [EvPipeline upc thread_id]). split_and!.
  - by rewrite <- app_assoc.
  - rewrite forallb_app, (engine_events_are_item_events _ Hev). done.
  - by rewrite pipeline_calls_app, Hp.
  - by rewrite reports_of_app, Hr.
  - intros u. rewrite completed_ids_app, Hc. cbn. rewrite elem_of_nil. tauto.
  - intros fi Hfi. by left.
Qed.

Lemma single_threaded_loop pool (rows : list (Z * Series)) output_dir dbg has_category
    acc w :
  map snd rows ⊆ pool →
  ∃ w' acc',
    for_each rows
      (λ item acc,
         let '(upc, url, category) := row_fields has_category item.2 in
         '(success, message) ← download_and_rename env upc url output_dir dbg 0 category;
         tally upc url item.2 success message acc) acc w = (w', inr acc') ∧
    items_done pool (rev (map (λ item, upc_key item.2) rows)) (length rows) w acc w' acc'.
Proof.
  revert w acc. induction rows as [|item rows IH]; intros w acc Hsub.
  - exists w, acc. split; [done | apply items_done_refl].
  - cbn [for_each]. unfold bind at 1. unfold row_fields at 1. cbn beta iota. unfold bind at 1.
    destruct (download_and_rename_items_done pool (upc_key item.2)
                (Str.strip (Pandas.str (Pandas.at_ item.2 "IMAGES LINK"))) output_dir dbg 0
                (if has_category && Pandas.notna (Pandas.get item.2 "CATEGORY")
                 then Some (Str.strip (Pandas.str (Pandas.at_ item.2 "CATEGORY")))
                 else None) w acc) as (w1 & [ok msg] & E1 & H1).
    unfold upc_key in E1 at 1. rewrite E1.
    destruct (tally_run pool (Str.strip (Pandas.str (Pandas.at_ item.2 "UPC")))
                (Str.strip (Pandas.str (Pandas.at_ item.2 "IMAGES LINK"))) item.2 ok msg acc w1)
      as (w2 & acc2 & E2 & _ & H2).
    { apply Hsub. cbn. left. }
    rewrite E2.
    destruct (IH w2 acc2) as (w3 & acc3 & E3 & H3).
    { intros x Hx. apply Hsub. cbn. by right. }
    exists w3, acc3. split; [exact E3 |].
    pose proof (items_done_trans _ _ _ _ _ _ _ _ _ _ _
                  (items_done_trans _ _ _ _ _ _ _ _ _ _ _ H1 H2) H3) as H.
    cbn [map rev length]. rewrite app_nil_l in H. exact H.
Qed.

Lemma reorder_perm {A} (picks : list nat) (l : list A) : reorder picks l ≡ₚ l.
Proof.
  revert l. induction picks as [|p picks IH]; intros l; cbn; [done |].
  destruct (l !! (p mod length l)%nat) as [x|] eqn:E; [| done].
  rewrite IH. symmetry. by apply delete_Permutation.
Qed.

(** The pool runs the tasks: every future holds a returned value. *)
Lemma tasks_run pool output_dir dbg tasks done w acc :
  ∃ w' futs,
    for_each tasks (λ t done, r ← run_task env output_dir dbg t; ret (done ++ [(t, r)]))
             done w = (w', inr (done ++ futs)) ∧
    map fst futs = tasks ∧
    Forall (λ f : Task * FutureResult, ∃ v, f.2 = FutValue v) futs ∧
    items_done pool (rev (map t_upc tasks)) 0 w acc w' acc.
Proof.
  revert done w. induction tasks as [|t tasks IH]; intros done w.
  - exists w, []. rewrite app_nil_r. split_and!; try done. apply items_done_refl.
  - cbn [for_each]. unfold bind at 1. unfold bind at 1. unfold run_task at 1.
    destruct (download_and_rename_items_done pool (t_upc t) (t_url t) output_dir dbg
                (t_thread_id t) (t_category t) w acc) as (w1 & v & E1 & H1).
    rewrite E1. cbn.
    destruct (IH (done ++ [(t, FutValue v)]) w1) as (w2 & futs & E2 & Hm & Hv & H2).
    exists w2, ((t, FutValue v) :: futs). split_and!.
    + rewrite E2. by rewrite <- app_assoc.
    + cbn. by rewrite Hm.
    + constructor; [by exists v | done].
    + exact (items_done_trans _ _ _ _ _ _ _ _ _ _ _ H1 H2).
Qed.

(** [df.loc[idx]] for a label of the frame is one of its rows. *)
Lemma loc_is_row (rows : list (Z * Series)) idx : idx ∈ map fst rows → loc rows idx ∈ map snd rows.
Proof.
  induction rows as [|[i r] rows IH]; cbn; [by intros ?%elem_of_nil |].
  intros Hin. destruct (Z.eqb_spec i idx) as [->|Hne]; [left |].
  apply elem_of_cons in Hin as [?|Hin]; [congruence |]. right. by apply IH.
Qed.

(** The futures are handed back: every one is counted. *)
Lemma futures_handled df futs acc w :
  Forall (λ f : Task * FutureResult,
            (∃ v, f.2 = FutValue v) ∧ t_idx f.1 ∈ map fst (df_rows df)) futs →
  ∃ w' acc',
    for_each futs (on_completed df) acc w = (w', inr acc') ∧
    items_done (map snd (df_rows df)) [] (length futs) w acc w' acc'.
Proof.
  revert acc w. induction futs as [|[t r] futs IH]; intros acc w Hv.
  - exists w, acc. split; [done | apply items_done_refl].
  - inversion Hv as [|? ? [[[ok msg] Hr] Hidx] Hv']; subst. cbn in Hr, Hidx. subst r.
    cbn [for_each]. unfold bind at 1. unfold on_completed at 1, try_except. cbn.
    destruct (tally_run (map snd (df_rows df)) (t_upc t) (t_url t)
                (loc (df_rows df) (t_idx t)) ok msg acc w)
      as (w1 & acc1 & E1 & _ & H1); [by apply loc_is_row |].
    rewrite E1.
    destruct (IH acc1 w1 Hv') as (w2 & acc2 & E2 & H2).
    exists w2, acc2. split; [exact E2 |].
    exact (items_done_trans _ _ _ _ _ _ _ _ _ _ _ H1 H2).
Qed.

Lemma multi_threaded_run df output_dir dbg has_category stats successful_upcs threads w :
  0 < threads →
  ∃ w' acc' handed,
    _process_multi_threaded env df output_dir dbg has_category stats successful_upcs threads w
      = (w', inr acc') ∧
    handed ≡ₚ map (λ item, upc_key item.2) (df_rows df) ∧
    items_done (map snd (df_rows df)) handed (length (df_rows df))
               w (stats, successful_upcs) w' acc'.
Proof.
  intros Hth. unfold _process_multi_threaded.
  destruct (Z.leb_spec threads 0) as [?|_]; [lia |].
  unfold bind at 1. unfold get_world at 1.
  set (tasks := map _ (df_rows df)).
  assert (Hupc : map t_upc tasks = map (λ item, upc_key item.2) (df_rows df)).
  { unfold tasks. rewrite map_map. apply map_ext. by intros []. }
  assert (Hidx : map t_idx tasks = map fst (df_rows df)).
  { unfold tasks. rewrite map_map. apply map_ext. by intros []. }
  unfold bind at 1.
  destruct (tasks_run (map snd (df_rows df)) output_dir dbg
              (reorder (pool_picks env w).1 tasks) [] w (stats, successful_upcs))
    as (w1 & futs & E1 & Hm & Hv & H1).
  rewrite E1. cbn [app].
  assert (Hall : Forall (λ f : Task * FutureResult,
                           (∃ v, f.2 = FutValue v) ∧ t_idx f.1 ∈ map fst (df_rows df))
                        (reorder (pool_picks env w).2 futs)).
  { rewrite reorder_perm. apply Forall_and. split; [done |].
    apply Forall_forall. intros f Hf. rewrite <- Hidx.
    apply list_elem_of_fmap. exists f.1. split; [done |].
    assert (Hin : f.1 ∈ map fst futs) by (apply list_elem_of_fmap; eauto).
    rewrite Hm, reorder_perm in Hin. done. }
  destruct (futures_handled df _ (stats, successful_upcs) w1 Hall) as (w2 & acc2 & E2 & H2).
  exists w2, acc2, (rev (map t_upc (reorder (pool_picks env w).1 tasks))).
  split_and!; [exact E2 | |].
  - rewrite <- Permutation_rev, reorder_perm, Hupc. done.
  - pose proof (items_done_trans _ _ _ _ _ _ _ _ _ _ _ H1 H2) as H.
    rewrite app_nil_l, Nat.add_0_l in H.
    assert (Hlen : length (reorder (pool_picks env w).2 futs) = length (df_rows df)).
    { rewrite reorder_perm, <- (length_map fst), Hm, reorder_perm.
      unfold tasks. by rewrite length_map. }
    by rewrite Hlen in H.
Qed.

(** Either loop, as [process_excel] chooses. *)
Lemma items_run df output_dir dbg has_category stats successful_upcs threads w :
  0 < threads →
  ∃ w' acc' handed,
    (if threads =? 1
     then _process_single_threaded env df output_dir dbg has_category stats successful_upcs
     else _process_multi_threaded env df output_dir dbg has_category stats successful_upcs
                                  threads) w = (w', inr acc') ∧
    handed ≡ₚ map (λ item, upc_key item.2) (df_rows df) ∧
    items_done (map snd (df_rows df)) handed (length (df_rows df))
               w (stats, successful_upcs) w' acc'.
Proof.
  intros Hth. destruct (threads =? 1); [| by apply multi_threaded_run].
  destruct (single_threaded_loop (map snd (df_rows df)) (df_rows df) output_dir dbg
              has_category (stats, successful_upcs) w) as (w' & acc' & E & H); [done |].
  exists w', acc', (rev (map (λ item, upc_key item.2) (df_rows df))).
  split_and!; [exact E | by rewrite <- Permutation_rev | done].
Qed.

End Loops.

(** ** One round *)

Section Round.

Context (env : Env).

Lemma mkdir_parents_ok p w :
  mkdir_ok env p (tree w) = true →
  ∃ t, mkdir_parents env p w = (mkWorld t (sheets w) (stdin w) (trace w), inr tt).
Proof.
  unfold mkdir_ok, mkdir_parents.
  destruct (mkdir_walk _ _ _ _) as [t [msg|]]; [done |]. intros _. by exists t.
Qed.

(** A round whose manifest can be read and has the two columns, whose
    output directory can be made, and with at least one thread, runs to
    its summary. *)
Lemma run_round_run excel_file output_dir threads dbg no_categories w sh :
  sheets w !! abs_path env (PathOps.of_str excel_file) = Some sh →
  "UPC" ∈ columns sh → "IMAGES LINK" ∈ columns sh →
  mkdir_ok env (PathOps.of_str output_dir) (tree w) = true →
  0 < threads →
  ∃ w1 stats succ evs,
    run_round env excel_file output_dir threads dbg no_categories w
      = (w1, inr (stats, succ)) ∧
    sheets w1 = sheets w ∧ stdin w1 = stdin w ∧
    total stats = Z.of_nat (length (manifest_rows sh)) ∧
    counted stats = total stats ∧
    trace w1 = EvSummary stats :: evs ++ round_header excel_file ++ trace w ∧
    forallb is_item_event evs = true ∧
    pipeline_calls evs ≡ₚ map (λ item, upc_key item.2) (manifest_rows sh) ∧
    length (reports_of evs) = length (manifest_rows sh) ∧
    (∀ u, u ∈ succ ↔ u ∈ completed_ids evs) ∧
    (∀ fi, fi ∈ failed stats → f_row_data fi ∈ map snd (manifest_rows sh)).
Proof.
  intros Hsh Hupc Hlink Hmk Hth. unfold run_round.
  unfold bind at 1. unfold emit at 1. unfold bind at 1.
  unfold try_except at 1, read_excel at 1. cbn [sheets]. rewrite Hsh.
  unfold bind at 1.
  set (w_a := mkWorld _ _ _ (EvReading excel_file :: trace w)).
  assert (∃ w_b, (if Str.startswith "failed_" (PathOps.name (PathOps.of_str excel_file))
                  then emit (EvNote "Retrying failed downloads...") else ret tt) w_a
                 = (w_b, inr tt) ∧ tree w_b = tree w ∧ sheets w_b = sheets w ∧
                 stdin w_b = stdin w ∧ trace w_b = round_header excel_file ++ trace w)
    as (w_b & -> & Htb & Hsb & Hib & Hrb).
  { unfold round_header. destruct (Str.startswith _ _); eexists; (split; [reflexivity |]); done. }
  cbn [forallb Pandas.of_sheet df_columns].
  rewrite !bool_decide_eq_true_2 by done. cbn [andb negb].
  unfold bind at 1.
  destruct (mkdir_parents_ok (PathOps.of_str output_dir) w_b) as [t Emk];
    [by rewrite Htb |].
  rewrite Emk. set (w_c := mkWorld t _ _ _).
  unfold bind at 1.
  match goal with
  | |- context [(if threads =? 1
                 then _process_single_threaded env ?df ?o ?d ?hc ?st ?su
                 else _) w_c] =>
      destruct (items_run env df o d hc st su threads w_c Hth)
        as (w1 & [stats succ] & handed & E & Hperm & Hdone)
  end.
  rewrite E. cbn.
  destruct Hdone as (Hs & Hi & Ht & Hc & evs & Htr & Hev & Hp & Hr & Hsucc & Hf).
  cbn in Hs, Hi, Ht, Hc, Htr, Hsucc, Hf.
  eexists _, stats, succ, evs. split; [reflexivity |]. cbn.
  split_and!.
  - by rewrite Hs.
  - by rewrite Hi.
  - exact Ht.
  - rewrite Ht. unfold counted in Hc. cbn in Hc. unfold counted, manifest_rows.
    unfold Pandas.of_sheet. lia.
  - by rewrite Htr, Hrb.
  - done.
  - by rewrite Hp.
  - exact Hr.
  - intros u. rewrite Hsucc, elem_of_empty. tauto.
  - intros fi Hfi. destruct (Hf fi Hfi) as [[]%elem_of_nil|]; done.
Qed.

(** A round that has run to its summary had all that. *)
Lemma run_round_inv excel_file output_dir threads dbg no_categories w w1 r :
  run_round env excel_file output_dir threads dbg no_categories w = (w1, inr r) →
  ∃ sh,
    sheets w !! abs_path env (PathOps.of_str excel_file) = Some sh ∧
    "UPC" ∈ columns sh ∧ "IMAGES LINK" ∈ columns sh ∧
    mkdir_ok env (PathOps.of_str output_dir) (tree w) = true ∧
    0 < threads.
Proof.
  unfold run_round.
  unfold bind at 1. unfold emit at 1. unfold bind at 1.
  unfold try_except at 1, read_excel at 1. cbn [sheets].
  destruct (sheets w !! abs_path env (PathOps.of_str excel_file)) as [sh|] eqn:Hsh;
    [| cbn; discriminate].
  unfold bind at 1.
  set (w_a := mkWorld _ _ _ (EvReading excel_file :: trace w)).
  assert (∃ w_b, (if Str.startswith "failed_" (PathOps.name (PathOps.of_str excel_file))
                  then emit (EvNote "Retrying failed downloads...") else ret tt) w_a
                 = (w_b, inr tt) ∧ tree w_b = tree w) as (w_b & -> & Htb).
  { destruct (Str.startswith _ _); eexists; (split; [reflexivity |]); done. }
  cbn [forallb Pandas.of_sheet df_columns].
  destruct (bool_decide ("UPC" ∈ columns sh)) eqn:Hupc; [| cbn; discriminate].
  destruct (bool_decide ("IMAGES LINK" ∈ columns sh)) eqn:Hlink; [| cbn; discriminate].
  apply bool_decide_eq_true_1 in Hupc, Hlink.
  cbn [andb negb]. unfold bind at 1.
  destruct (mkdir_parents env (PathOps.of_str output_dir) w_b) as [w_c [e|[]]] eqn:Emk;
    [discriminate |].
  assert (Hmk : mkdir_ok env (PathOps.of_str output_dir) (tree w) = true).
  { rewrite <- Htb. revert Emk. unfold mkdir_ok, mkdir_parents.
    destruct (mkdir_walk _ _ _ _) as [t [msg|]]; [discriminate | done]. }
  unfold bind at 1.
  destruct (threads =? 1) eqn:Hth1.
  { intros _. exists sh. split_and!; try done. apply Z.eqb_eq in Hth1. lia. }
  unfold _process_multi_threaded at 1.
  destruct (Z.leb_spec threads 0) as [?|?]; [discriminate |].
  intros _. by exists sh.
Qed.

End Round.

(** ** The statistics of a round, and what is handed to the pipeline *)

(** C5.  A round whose manifest loads (it has the two required columns),
    whose output directory can be made and which has at least one thread
    runs to its summary, and there [completed + skipped + len(failed)]
    is [total], the number of manifest rows left after those with a
    missing required field are dropped; the round writes one report line
    for each of these rows. *)
Theorem round_statistics_complete env excel_file output_dir threads dbg no_categories w sh :
  sheets w !! abs_path env (PathOps.of_str excel_file) = Some sh →
  "UPC" ∈ columns sh → "IMAGES LINK" ∈ columns sh →
  mkdir_ok env (PathOps.of_str output_dir) (tree w) = true →
  0 < threads →
  ∃ w1 stats succ evs,
    run_round env excel_file output_dir threads dbg no_categories w
      = (w1, inr (stats, succ)) ∧
    trace w1 = EvSummary stats :: evs ++ round_header excel_file ++ trace w ∧
    length (reports_of evs) = length (manifest_rows sh) ∧
    total stats = Z.of_nat (length (manifest_rows sh)) ∧
    completed stats + skipped stats + Z.of_nat (length (failed stats)) = total stats.
Proof.
  intros Hsh Hupc Hlink Hmk Hth.
  destruct (run_round_run env excel_file output_dir threads dbg no_categories w sh
              Hsh Hupc Hlink Hmk Hth)
    as (w1 & stats & succ & evs & E & _ & _ & Ht & Hc & Htr & _ & _ & Hr & _).
  exists w1, stats, succ, evs. by split_and!.
Qed.

Lemma round_statistics_complete_sample :
  sheets sample_world !! abs_path sample_env (PathOps.of_str "products.xlsx")
    = Some sample_manifest ∧
  "UPC" ∈ columns sample_manifest ∧ "IMAGES LINK" ∈ columns sample_manifest ∧
  mkdir_ok sample_env (PathOps.of_str "out") (tree sample_world) = true ∧
  0 < 3 ∧
  ∃ w1 stats succ evs,
    run_round sample_env "products.xlsx" "out" 3 false false sample_world
      = (w1, inr (stats, succ)) ∧
    trace w1 = EvSummary stats :: evs ++ round_header "products.xlsx" ++ trace sample_world ∧
    length (reports_of evs) = length (manifest_rows sample_manifest) ∧
    total stats = Z.of_nat (length (manifest_rows sample_manifest)) ∧
    completed stats + skipped stats + Z.of_nat (length (failed stats)) = total stats.
Proof.
  assert (H1 : sheets sample_world !! abs_path sample_env (PathOps.of_str "products.xlsx")
               = Some sample_manifest) by (vm_compute; reflexivity).
  assert (H2 : "UPC" ∈ columns sample_manifest) by (cbn; repeat constructor).
  assert (H3 : "IMAGES LINK" ∈ columns sample_manifest) by (cbn; repeat constructor).
  assert (H4 : mkdir_ok sample_env (PathOps.of_str "out") (tree sample_world) = true)
    by (vm_compute; reflexivity).
  assert (H5 : 0 < 3) by lia.
  split_and!; try assumption.
  exact (round_statistics_complete sample_env "products.xlsx" "out" 3 false false
           sample_world sample_manifest H1 H2 H3 H4 H5).
Defined.

(** C9, as the code has it.  The code does not look for repeated ids: a
    round hands every manifest row (after the rows with a missing
    required field are dropped) to the pipeline once, under the row's
    trimmed id.  So the pipeline is entered once for each id when the
    trimmed ids of the manifest are pairwise distinct. *)
Theorem pipeline_once_per_row env excel_file output_dir threads dbg no_categories w sh :
  sheets w !! abs_path env (PathOps.of_str excel_file) = Some sh →
  "UPC" ∈ columns sh → "IMAGES LINK" ∈ columns sh →
  mkdir_ok env (PathOps.of_str output_dir) (tree w) = true →
  0 < threads →
  ∃ w1 r calls,
    run_round env excel_file output_dir threads dbg no_categories w = (w1, inr r) ∧
    pipeline_calls (trace w1) = calls ++ pipeline_calls (trace w) ∧
    calls ≡ₚ map (λ item, upc_key item.2) (manifest_rows sh) ∧
    (NoDup (map (λ item, upc_key item.2) (manifest_rows sh)) → NoDup calls).
Proof.
  intros Hsh Hupc Hlink Hmk Hth.
  destruct (run_round_run env excel_file output_dir threads dbg no_categories w sh
              Hsh Hupc Hlink Hmk Hth)
    as (w1 & stats & succ & evs & E & _ & _ & _ & _ & Htr & _ & Hp & _).
  exists w1, (stats, succ), (pipeline_calls evs). split_and!; [done | | done |].
  - destruct (round_header_events excel_file) as (_ & _ & Hh & _).
    rewrite Htr. change (EvSummary stats :: ?l) with ([EvSummary stats] ++ l).
    by rewrite !pipeline_calls_app, Hh.
  - intros Hnd. by rewrite Hp.
Qed.

Lemma pipeline_once_per_row_sample :
  sheets sample_world !! abs_path sample_env (PathOps.of_str "products.xlsx")
    = Some sample_manifest ∧
  "UPC" ∈ columns sample_manifest ∧ "IMAGES LINK" ∈ columns sample_manifest ∧
  mkdir_ok sample_env (PathOps.of_str "out") (tree sample_world) = true ∧
  0 < 1 ∧
  ∃ w1 r calls,
    run_round sample_env "products.xlsx" "out" 1 false false sample_world = (w1, inr r) ∧
    pipeline_calls (trace w1) = calls ++ pipeline_calls (trace sample_world) ∧
    calls ≡ₚ map (λ item, upc_key item.2) (manifest_rows sample_manifest) ∧
    (NoDup (map (λ item, upc_key item.2) (manifest_rows sample_manifest)) → NoDup calls).
Proof.
  assert (H1 : sheets sample_world !! abs_path sample_env (PathOps.of_str "products.xlsx")
               = Some sample_manifest) by (vm_compute; reflexivity).
  assert (H2 : "UPC" ∈ columns sample_manifest) by (cbn; repeat constructor).
  assert (H3 : "IMAGES LINK" ∈ columns sample_manifest) by (cbn; repeat constructor).
  assert (H4 : mkdir_ok sample_env (PathOps.of_str "out") (tree sample_world) = true)
    by (vm_compute; reflexivity).
  assert (H5 : 0 < 1) by lia.
  split_and!; try assumption.
  exact (pipeline_once_per_row sample_env "products.xlsx" "out" 1 false false
           sample_world sample_manifest H1 H2 H3 H4 H5).
Defined.

(** C9 as the specification states it fails: on a manifest that names
    the id [A1] in two rows, the round enters the pipeline twice for
    [A1]. *)
Lemma pipeline_twice_for_repeated_id :
  pipeline_calls
    (trace (run_round sample_env "twice.xlsx" "out" 1 false false twice_world).1)
  = ["A1"; "A1"].
Proof. vm_compute. reflexivity. Qed.

(** ** The session of the engine *)

(** C3, as the code has it.  Off Windows, every call of the engine that
    the pipeline makes for an item on worker slot [thread_id] gets the
    session [/tmp/chrome-download-<thread_id>]: the slot alone decides.
    (On Windows the code puts the item's id into the name as well.) *)
Theorem session_id_by_slot_off_windows env upc image_url output_dir dbg thread_id category w :
  is_windows env = false →
  ∃ evs,
    trace (download_and_rename env upc image_url output_dir dbg thread_id category w).1
      = evs ++ EvPipeline upc thread_id :: trace w ∧
    ∀ a, a ∈ engine_calls evs →
         ea_user_data_dir a = "/tmp/chrome-download-" +:+ str_of_Z thread_id.
Proof.
  intros Hwin.
  destruct (download_and_rename_run env upc image_url output_dir dbg thread_id category w)
    as (w' & v & evs & E & _ & _ & Ht & _ & HP).
  exists evs. rewrite E. split; [exact Ht |].
  intros a Ha. rewrite Forall_forall in HP. rewrite <- (HP a Ha).
  cbn. unfold user_data_dir_of. by rewrite Hwin.
Qed.

Lemma session_id_by_slot_sample :
  is_windows sample_env = false ∧
  ∃ evs,
    trace (download_and_rename sample_env "A1" "u1" "out" false 2 None empty_world).1
      = evs ++ EvPipeline "A1" 2 :: trace empty_world ∧
    ∀ a, a ∈ engine_calls evs →
         ea_user_data_dir a = "/tmp/chrome-download-" +:+ str_of_Z 2.
Proof.
  split; [reflexivity |].
  exact (session_id_by_slot_off_windows sample_env "A1" "u1" "out" false 2 None empty_world
           eq_refl).
Defined.

(** C3 as the specification states it fails on Windows: two items on
    the same worker slot 0 get two sessions, each named after its item. *)
Lemma session_id_names_the_item_on_windows :
  map ea_user_data_dir
      (engine_calls
         (trace (download_and_rename windows_env "A1" "u1" "out" false 0 None empty_world).1))
    = ["C:\Temp\chrome-download-0-A1"] ∧
  map ea_user_data_dir
      (engine_calls
         (trace (download_and_rename windows_env "A2" "u2" "out" false 0 None empty_world).1))
    = ["C:\Temp\chrome-download-0-A2"].
Proof. split; vm_compute; reflexivity. Qed.

(** ** The probe for an existing file *)

Section Probe.

Context (env : Env).

Lemma entry_in_abs d p :
  PathOps.parent p = abs_path env d → comps p ≠ [] →
  abs_path env (entry_in d p) = p ∧ PathOps.name (entry_in d p) = PathOps.name p.
Proof.
  intros Hpar Hne. split.
  - destruct p as [a cs]. unfold PathOps.parent in Hpar. cbn in *.
    unfold abs_path, PathOps.resolve, entry_in, PathOps.name in *. cbn in *.
    rewrite (app_removelast_last EmptyString Hne) at 3.
    destruct (anchor d) eqn:Hd; cbn; rewrite ?Hd.
    + subst d. cbn in *. by subst a.
    + injection Hpar as -> ->. by rewrite app_assoc.
  - unfold entry_in, PathOps.name. cbn. apply last_last.
Qed.

Lemma first_match_entries d upc (l : list (Path * Node)) w :
  Forall (λ e, PathOps.parent e.1 = abs_path env d ∧ comps e.1 ≠ []) l →
  first_match env (map (λ e, entry_in d e.1) l) upc w
  = (w, inr (entry_in d <$>
             (fst <$> List.find (λ e, TreeOps.is_file (tree w) e.1 &&
                                      String.eqb (PathOps.stem e.1) upc) l))).
Proof.
  induction 1 as [|e l [Hpar Hne] _ IH]; [done |].
  destruct (entry_in_abs d e.1 Hpar Hne) as [Habs Hname].
  cbn [map first_match List.find]. unfold bind, path_is_file.
  rewrite Habs. unfold PathOps.stem at 1. rewrite Hname. fold (PathOps.stem e.1).
  by destruct (TreeOps.is_file (tree w) e.1 && String.eqb (PathOps.stem e.1) upc).
Qed.

Lemma children_are_entries t d :
  Forall (λ e, PathOps.parent e.1 = d ∧ comps e.1 ≠ []) (TreeOps.children t d).
Proof.
  apply List.Forall_forall. intros e [_ He]%List.filter_In.
  by apply bool_decide_eq_true_1 in He.
Qed.

Lemma find_first {A} (P : A → bool) (l : list A) x :
  List.find P l = Some x →
  ∃ before after, l = before ++ x :: after ∧ P x = true ∧
                  Forall (λ y, P y = false) before.
Proof.
  induction l as [|y l IH]; cbn; [done |].
  destruct (P y) eqn:Hy.
  - intros [= ->]. by exists [], l.
  - intros (before & after & -> & Hx & Hb)%IH.
    exists (y :: before), after. split_and!; [done | done | by constructor].
Qed.

Lemma find_nothing {A} (P : A → bool) (l : list A) :
  List.find P l = None ↔ Forall (λ y, P y = false) l.
Proof.
  induction l as [|y l IH]; cbn; [by split |].
  destruct (P y) eqn:Hy.
  - split; [done |]. intros H. inversion H; congruence.
  - rewrite IH. split; [by constructor | by inversion 1].
Qed.

(** What the probe computes. *)
Lemma check_existing_file_run output_dir upc category w :
  check_existing_file env output_dir upc category w
  = (w,
     match TreeOps.node_at (tree w) (abs_path env (target_of output_dir category)) with
     | None => inr None
     | Some NDir =>
         inr (entry_in (target_of output_dir category) <$>
              first_regular_file (tree w) (abs_path env (target_of output_dir category)) upc)
     | Some NFile =>
         inl (Exception ("[Errno 20] Not a directory: "
                         +:+ PathOps.to_str (target_of output_dir category)))
     end).
Proof.
  destruct (TreeOps.node_at (tree w) (abs_path env (target_of output_dir category)))
    as [[]|] eqn:E;
    unfold check_existing_file, bind, path_exists, TreeOps.exists_, iterdir;
    rewrite ?E; cbn [negb]; rewrite ?E; [| done | done].
  unfold first_regular_file.
  apply (first_match_entries (target_of output_dir category) upc).
  apply children_are_entries.
Qed.


End Probe.

(** ** Skipping what is there *)

Section Skip.

Context (env : Env).

Lemma assoc_In (t : Tree) p n : TreeOps.assoc t p = Some n → (p, n) ∈ t.
Proof.
  induction t as [|[q m] t IH]; cbn; [done |].
  destruct (decide (q = p)) as [->|]; [intros [= ->]; left | right; auto].
Qed.

Lemma is_dir_parent t p :
  wf_tree t = true → comps p ≠ [] → TreeOps.is_dir t p = true →
  TreeOps.is_dir t (PathOps.parent p) = true.
Proof.
  intros Hwf Hne. unfold TreeOps.is_dir at 1, TreeOps.node_at.
  destruct (comps p) eqn:Hc; [done |]. clear Hc Hne.
  destruct (TreeOps.assoc t p) as [[]|] eqn:E; [| done | done]. intros _.
  apply assoc_In, list_elem_of_In in E.
  unfold wf_tree in Hwf. rewrite forallb_forall in Hwf. exact (Hwf _ E).
Qed.

(** In a well-formed tree the ancestors of a directory are directories. *)
Lemma is_dir_ancestor t a l1 l2 :
  wf_tree t = true → TreeOps.is_dir t (mkPath a (l1 ++ l2)) = true →
  TreeOps.is_dir t (mkPath a l1) = true.
Proof.
  intros Hwf. induction l2 as [|x l2 IH] using rev_ind; [by rewrite app_nil_r |].
  intros Hd. apply IH.
  apply (is_dir_parent _ _ Hwf) in Hd; [| cbn; by destruct l1, l2].
  unfold PathOps.parent in Hd. cbn in Hd. by rewrite app_assoc, removelast_last in Hd.
Qed.

Lemma mkdir_walk_existing t a pre rest :
  wf_tree t = true → TreeOps.is_dir t (mkPath a (pre ++ rest)) = true →
  mkdir_walk a pre rest t = (t, None).
Proof.
  intros Hwf. revert pre. induction rest as [|c rest IH]; intros pre Hd; [done |].
  cbn [mkdir_walk].
  assert (Hc : TreeOps.is_dir t (mkPath a (pre ++ [c])) = true).
  { apply (is_dir_ancestor t a (pre ++ [c]) rest Hwf). by rewrite <- app_assoc. }
  unfold TreeOps.is_dir in Hc.
  destruct (TreeOps.node_at t (mkPath a (pre ++ [c]))) as [[]|]; [| done | done].
  apply IH. by rewrite <- app_assoc.
Qed.

Lemma mkdir_parents_existing p w :
  wf_tree (tree w) = true → TreeOps.is_dir (tree w) (abs_path env p) = true →
  mkdir_parents env p w = (w, inr tt).
Proof.
  intros Hwf Hd. unfold mkdir_parents.
  rewrite mkdir_walk_existing; [| done | by destruct (abs_path env p)].
  unfold set_tree. by destruct w.
Qed.

Lemma find_is_some {A} (f : A → bool) (l : list A) x :
  x ∈ l → f x = true → ∃ y, List.find f l = Some y.
Proof.
  induction 1 as [x l|x y l _ IH]; cbn; intros Hx.
  - rewrite Hx. eauto.
  - destruct (f y); eauto.
Qed.


End Skip.


(** ** Faults of one item *)

Section Faults.

Context (env : Env).

(** C4.  The pipeline returns for every item in every world; when
    anything inside it raises an exception, what it returns is
    [(False, "Error: ...")].  At the boundary of the pool a future that
    holds an exception becomes a failure record of its item.  So both
    loops return for every frame: no item makes a round stop. *)
Theorem item_faults_become_failures :
  (∀ upc image_url output_dir dbg thread_id category w,
     ∃ w' b m,
       download_and_rename env upc image_url output_dir dbg thread_id category w
         = (w', inr (b, m)) ∧
       ∀ w1 msg,
         download_and_rename_body env upc image_url output_dir dbg thread_id category
           (emit (EvPipeline upc thread_id) w).1 = (w1, inl (Exception msg)) →
         w' = w1 ∧ b = false ∧ m = "Error: " +:+ msg) ∧
  (∀ df t msg acc w,
     on_completed df (t, FutRaised (Exception msg)) acc w
     = ((emit (EvReport Failed (t_upc t) ("Exception: " +:+ msg)) w).1,
        inr (add_failed acc.1 (t_upc t) (t_url t) msg (loc (df_rows df) (t_idx t)), acc.2))) ∧
  (∀ df output_dir dbg has_category stats successful_upcs w,
     ∃ w' acc',
       _process_single_threaded env df output_dir dbg has_category stats successful_upcs w
         = (w', inr acc') ∧
       counted acc'.1 = counted stats + Z.of_nat (length (df_rows df))) ∧
  (∀ df output_dir dbg has_category stats successful_upcs threads w,
     0 < threads →
     ∃ w' acc',
       _process_multi_threaded env df output_dir dbg has_category stats successful_upcs
                               threads w = (w', inr acc') ∧
       counted acc'.1 = counted stats + Z.of_nat (length (df_rows df))).
Proof.
  split_and!.
  - intros upc image_url output_dir dbg thread_id category w.
    destruct (download_and_rename_run env upc image_url output_dir dbg thread_id category w)
      as (w' & [b m] & evs & E & _).
    exists w', b, m. split; [exact E |].
    intros w1 msg Hbody. revert E.
    unfold download_and_rename, bind at 1, try_except. cbn [emit fst] in Hbody |- *.
    rewrite Hbody. cbn. by intros [= -> -> ->].
  - reflexivity.
  - intros df output_dir dbg has_category stats successful_upcs w.
    destruct (single_threaded_loop env (map snd (df_rows df)) (df_rows df) output_dir dbg
                has_category (stats, successful_upcs) w) as (w' & acc' & E & H); [done |].
    exists w', acc'. split; [exact E |]. by destruct H as (_ & _ & _ & Hc & _).
  - intros df output_dir dbg has_category stats successful_upcs threads w Hth.
    destruct (multi_threaded_run env df output_dir dbg has_category stats successful_upcs
                threads w Hth) as (w' & acc' & handed & E & _ & H).
    exists w', acc'. split; [exact E |]. by destruct H as (_ & _ & _ & Hc & _).
Qed.

End Faults.

Lemma item_faults_become_failures_sample :
  ∃ w',
    download_and_rename sample_env "A3" "boom" "out" false 0 None empty_world
    = (w', inr (false, "Error: engine crashed")).
Proof.
  destruct (item_faults_become_failures sample_env) as (H & _).
  destruct (H "A3" "boom" "out" false 0 None empty_world) as (w' & b & m & E & Hraise).
  destruct (download_and_rename_body sample_env "A3" "boom" "out" false 0 None
              (emit (EvPipeline "A3" 0) empty_world).1) as [w1 r] eqn:Hbody.
  assert (Hr : r = inl (Exception "engine crashed")).
  { revert Hbody. vm_compute. by intros [= _ <-]. }
  subst r. destruct (Hraise w1 "engine crashed" eq_refl) as (-> & -> & ->).
  by exists w1.
Defined.

(** ** What the message of a success says *)

Lemma contains_skipped_downloaded s :
  Str.contains "Skipped" ("Downloaded as " +:+ s) = Str.contains "Skipped" s.
Proof. reflexivity. Qed.

Section Message.

Context (env : Env).

(** C10, as the code has it.  A success of the pipeline is one of two:
    the probe (run after the target directory is made) found a file [e],
    and the message is "Skipped (already exists: <name of e>)", which
    contains "Skipped"; or it found none, the engine returned a file
    [f], and the message is "Downloaded as <final name>", which contains
    "Skipped" exactly when the final name (the last component of
    [<id><extension of f>] in the target directory) does.  The loops
    count a success as skipped exactly when its message contains
    "Skipped", and add the id to the successful ids otherwise. *)
Theorem success_message_decides_the_tally upc image_url output_dir dbg thread_id category
    w w' m :
  download_and_rename env upc image_url output_dir dbg thread_id category w
    = (w', inr (true, m)) →
  (∃ w1 found,
     mkdir_parents env (target_of output_dir category) (emit (EvPipeline upc thread_id) w).1
       = (w1, inr tt) ∧
     check_existing_file env output_dir upc category w1 = (w1, inr found) ∧
     match found with
     | Some e =>
         m = "Skipped (already exists: " +:+ PathOps.name e +:+ ")" ∧
         Str.contains "Skipped" m = true
     | None =>
         ∃ f, m = "Downloaded as " +:+ final_name output_dir category upc f ∧
              Str.contains "Skipped" m
              = Str.contains "Skipped" (final_name output_dir category upc f)
     end) ∧
  ∀ url row_data acc w0,
    (tally upc url row_data true m acc w0).2
    = inr (if Str.contains "Skipped" m then (add_skipped acc.1, acc.2)
           else (add_completed acc.1, {[upc]} ∪ acc.2)).
Proof.
  intros E. split; [| intros url row_data acc w0; unfold tally;
                      by destruct (Str.contains "Skipped" m)].
  revert E. unfold download_and_rename, bind at 1, try_except. cbn [emit fst].
  set (w0 := mkWorld _ _ _ _).
  destruct (download_and_rename_body env upc image_url output_dir dbg thread_id category w0)
    as [w2 [[msg| |]|v]] eqn:Hbody; try discriminate. intros [= -> ->].
  revert Hbody. unfold download_and_rename_body.
  intros (w1 & [] & Hmk & Hrest)%bind_inr.
  apply bind_inr in Hrest as (w1' & found & Hprobe & Hrest).
  pose proof (check_existing_file_run env output_dir upc category w1) as Hspec.
  rewrite Hprobe in Hspec. injection Hspec as -> Hfound.
  exists w1, found. split_and!; [exact Hmk | exact Hprobe |].
  destruct found as [e|].
  - injection Hrest as _ <-. done.
  - apply bind_inr in Hrest as (w3 & [] & _ & Hrest).
    apply try_finally_inr in Hrest as (w4 & Hrest).
    apply bind_inr in Hrest as (w5 & downloaded & _ & Hrest).
    apply bind_inr in Hrest as (w6 & there & _ & Hrest).
    destruct downloaded as [f|]; [destruct there |]; try discriminate.
    apply bind_inr in Hrest as (w7 & [] & _ & Hrest).
    apply bind_inr in Hrest as (w8 & [] & _ & Hrest).
    injection Hrest as _ <-. exists f. split; [done |].
    apply contains_skipped_downloaded.
Qed.

End Message.

Lemma success_message_sample :
  download_and_rename sample_env "A1" "u1" "out" false 0 None empty_world
    = ((download_and_rename sample_env "A1" "u1" "out" false 0 None empty_world).1,
       inr (true, "Downloaded as A1.png")) ∧
  ∀ url row_data acc w0,
    (tally "A1" url row_data true "Downloaded as A1.png" acc w0).2
    = inr (if Str.contains "Skipped" "Downloaded as A1.png" then (add_skipped acc.1, acc.2)
           else (add_completed acc.1, {[ "A1" ]} ∪ acc.2)).
Proof.
  assert (H : download_and_rename sample_env "A1" "u1" "out" false 0 None empty_world
              = ((download_and_rename sample_env "A1" "u1" "out" false 0 None empty_world).1,
                 inr (true, "Downloaded as A1.png"))) by (vm_compute; reflexivity).
  split; [exact H |].
  exact (proj2 (success_message_decides_the_tally sample_env "A1" "u1" "out" false 0 None
                  empty_world _ _ H)).
Defined.

(** C10 as the specification states it fails: the id [A1] does not
    contain "Skipped" and no file [A1.*] is there, yet the round counts
    the freshly retrieved item as skipped and not as successful, because
    the retrieved file has the extension [.Skipped]. *)
Lemma fresh_download_counted_as_skipped :
  Str.contains "Skipped" "A1" = false ∧
  (check_existing_file odd_env "out" "A1" None one_world).2 = inr None ∧
  (download_and_rename odd_env "A1" "u1" "out" false 0 None one_world).2
    = inr (true, "Downloaded as A1.Skipped") ∧
  (run_round odd_env "one.xlsx" "out" 1 false false one_world).2
    = inr (mkStats 1 0 1 [], ∅).
Proof. split_and!; vm_compute; reflexivity. Qed.

(** ** Computations that do not prompt and start no round *)

Lemma calm_ret {A} (a : A) : calm (ret a).
Proof. intros w w' r [= <- <-]. split; [done |]. by exists []. Qed.

Lemma calm_raise {A} e : calm (raise (A:=A) e).
Proof. intros w w' r [= <- <-]. split; [done |]. by exists []. Qed.

Lemma calm_trace_app (w w1 w2 : World) evs evs2 :
  trace w1 = evs ++ trace w → rounds_of evs = 0%nat → prompts_of evs = 0%nat →
  trace w2 = evs2 ++ trace w1 → rounds_of evs2 = 0%nat → prompts_of evs2 = 0%nat →
  ∃ evs0, trace w2 = evs0 ++ trace w ∧ rounds_of evs0 = 0%nat ∧ prompts_of evs0 = 0%nat.
Proof.
  intros Ht Hr Hp Ht2 Hr2 Hp2. exists (evs2 ++ evs).
  rewrite Ht2, Ht, rounds_of_app, prompts_of_app, Hr, Hp, Hr2, Hp2.
  by rewrite app_assoc.
Qed.

Lemma calm_bind {A B} (m : M A) (f : A → M B) :
  calm m → (∀ a, calm (f a)) → calm (bind m f).
Proof.
  intros Hm Hf w w' r. unfold bind.
  destruct (m w) as [w1 [e|a]] eqn:E; destruct (Hm _ _ _ E) as (Hi & evs & Ht & Hr & Hp).
  - intros [= <- <-]. split; [done |]. by exists evs.
  - intros E2. destruct (Hf _ _ _ _ E2) as (Hi2 & evs2 & Ht2 & Hr2 & Hp2).
    split; [congruence |]. by eapply calm_trace_app.
Qed.

Lemma calm_try_except {A} (m : M A) (h : string → M A) :
  calm m → (∀ msg, calm (h msg)) → calm (try_except m h).
Proof.
  intros Hm Hh w w' r. unfold try_except.
  destruct (m w) as [w1 r1] eqn:E. destruct (Hm _ _ _ E) as (Hi & evs & Ht & Hr & Hp).
  assert (Hsame : (w1, r1) = (w', r) → stdin w' = stdin w ∧
            ∃ evs0, trace w' = evs0 ++ trace w ∧ rounds_of evs0 = 0%nat ∧
                    prompts_of evs0 = 0%nat).
  { intros [= <- <-]. split; [done |]. by exists evs. }
  destruct r1 as [[msg| |]|a]; try exact Hsame.
  intros E2. destruct (Hh _ _ _ _ E2) as (Hi2 & evs2 & Ht2 & Hr2 & Hp2).
  split; [congruence |]. by eapply calm_trace_app.
Qed.

Lemma calm_emit e :
  match e with EvReading _ | EvPrompt => False | _ => True end → calm (emit e).
Proof.
  intros He w w' r [= <- <-]. split; [done |]. exists [e]. by destruct e.
Qed.

Lemma calm_for_each {A S} (l : list A) (body : A → S → M S) s :
  (∀ x s, calm (body x s)) → calm (for_each l body s).
Proof.
  intros Hb. revert s. induction l as [|x l IH]; intros s; cbn.
  - apply calm_ret.
  - apply calm_bind; [apply Hb | intros s'; apply IH].
Qed.

Lemma calm_of_quiet P {A} (m : M A) : quiet P m → calm m.
Proof.
  intros Hq w w' r E. destruct (Hq _ _ _ E) as (_ & Hi & (evs & Ht & Hev & _) & _).
  split; [done |]. exists evs. split; [done |].
  by destruct (item_events_between_rounds _ (engine_events_are_item_events _ Hev))
    as (? & ? & _).
Qed.

Lemma calm_sheets_only {A} (m : M A) :
  (∀ w, ∃ sh r, m w = (mkWorld (tree w) sh (stdin w) (trace w), r)) → calm m.
Proof.
  intros H w w' r E. destruct (H w) as (sh & r' & E'). rewrite E in E'.
  injection E' as -> ->. split; [done |]. by exists [].
Qed.

Section Calm.

Context (env : Env).

Ltac sheets_only :=
  apply calm_sheets_only; intros w;
  repeat match goal with
         | |- context [match ?x with _ => _ end] => destruct x
         end;
  cbn; eexists _, _; first [reflexivity | by rewrite same_world].

Lemma calm_sheet_exists p : calm (sheet_exists env p).
Proof. unfold sheet_exists. sheets_only. Qed.

Lemma calm_read_excel p : calm (read_excel env p).
Proof. unfold read_excel. sheets_only. Qed.

Lemma calm_to_excel cols rs p : calm (to_excel env cols rs p).
Proof. unfold to_excel, set_sheets. sheets_only. Qed.

Lemma calm_unlink p : calm (unlink env p).
Proof. unfold unlink, set_sheets. sheets_only. Qed.

Lemma calm_mkdir_parents p : calm (mkdir_parents env p).
Proof. apply (calm_of_quiet (λ _, True)), quiet_mkdir_parents. Qed.

Lemma calm_download_and_rename upc image_url output_dir dbg thread_id category :
  calm (download_and_rename env upc image_url output_dir dbg thread_id category).
Proof.
  intros w w' r E.
  destruct (download_and_rename_run env upc image_url output_dir dbg thread_id category w)
    as (w1 & v & evs & E1 & _ & Hi & Ht & Hev & _).
  rewrite E in E1. injection E1 as -> ->. split; [done |].
  exists (evs ++ [EvPipeline upc thread_id]). rewrite <- app_assoc. split; [done |].
  destruct (item_events_between_rounds _ (engine_events_are_item_events _ Hev))
    as (Hr & Hp & _).
  by rewrite rounds_of_app, prompts_of_app, Hr, Hp.
Qed.

Lemma calm_tally upc url row_data success message acc :
  calm (tally upc url row_data success message acc).
Proof.
  unfold tally.
  destruct success; [destruct (Str.contains "Skipped" message) |];
    (apply calm_bind; [by apply calm_emit | intros; apply calm_ret]).
Qed.

End Calm.

Create HintDb calm.
#[global] Hint Resolve calm_ret calm_raise calm_sheet_exists calm_read_excel calm_to_excel
  calm_unlink calm_mkdir_parents calm_download_and_rename calm_tally : calm.

Ltac calm_steps :=
  repeat first
    [ solve [eauto with calm]
    | solve [apply calm_emit; exact I]
    | match goal with
      | |- calm (if ?b then _ else _) => destruct b
      | |- calm (match ?x with _ => _ end) => destruct x
      | |- calm (let '(_, _) := ?x in _) => destruct x
      | |- calm (bind _ _) => apply calm_bind; [| intros ?]
      | |- calm (try_except _ _) => apply calm_try_except; [| intros ?]
      | |- calm (for_each _ _ _) => apply calm_for_each; intros ? ?
      | |- calm (sys_exit _) => apply calm_raise
      end ].

Section CalmRound.

Context (env : Env).

Lemma calm_single_threaded df output_dir dbg has_category stats successful_upcs :
  calm (_process_single_threaded env df output_dir dbg has_category stats successful_upcs).
Proof. unfold _process_single_threaded. calm_steps. Qed.

Lemma calm_run_task output_dir dbg t : calm (run_task env output_dir dbg t).
Proof.
  intros w w' r. unfold run_task.
  destruct (download_and_rename env _ _ _ _ _ _ w) as [w1 r1] eqn:E.
  destruct (calm_download_and_rename env _ _ _ _ _ _ _ _ _ E) as [Hi Ht].
  by destruct r1; intros [= <- <-].
Qed.

Lemma calm_on_completed df fut acc : calm (on_completed df fut acc).
Proof.
  unfold on_completed. apply calm_try_except.
  - apply calm_bind; [destruct fut.2; cbn; calm_steps |].
    intros []. calm_steps.
  - intros msg. calm_steps.
Qed.

Lemma calm_multi_threaded df output_dir dbg has_category stats successful_upcs threads :
  calm (_process_multi_threaded env df output_dir dbg has_category stats successful_upcs
                                threads).
Proof.
  unfold _process_multi_threaded.
  pose proof calm_run_task. pose proof calm_on_completed.
  destruct (threads <=? 0); [apply calm_raise |].
  apply calm_bind; [by intros w w' r [= <- <-]; split; [| exists []] |].
  intros w0. calm_steps.
Qed.

Lemma calm_create_failed_excel df_failed output_dir excel_file :
  calm (create_failed_excel env df_failed output_dir excel_file).
Proof. unfold create_failed_excel. calm_steps. Qed.

Lemma calm_remove_successful p successful :
  calm (remove_successful_from_failed_excel env p successful).
Proof. unfold remove_successful_from_failed_excel. calm_steps. Qed.

Lemma calm_finish_round excel_file output_dir r :
  calm (finish_round env excel_file output_dir r).
Proof.
  unfold finish_round.
  pose proof calm_create_failed_excel. pose proof calm_remove_successful.
  calm_steps.
Qed.

End CalmRound.

(** ** The end of a round *)

Section Finish.

Context (env : Env).

(** A whole round starts once and does not prompt, however it ends. *)
Lemma process_excel_frame excel_file output_dir threads dbg no_categories w w' r :
  process_excel env excel_file output_dir threads dbg no_categories w = (w', r) →
  stdin w' = stdin w ∧
  ∃ evs, trace w' = evs ++ trace w ∧ rounds_of evs = 1%nat ∧ prompts_of evs = 0%nat.
Proof.
  unfold process_excel, run_round.
  pose proof (calm_single_threaded env). pose proof (calm_multi_threaded env).
  pose proof (calm_finish_round env).
  match goal with
  | |- bind (bind (emit ?e) ?k) ?f w = _ → _ =>
      assert (Hc : calm (bind (k tt) f)) by calm_steps;
      change (bind (bind (emit e) k) f w) with (bind (k tt) f (emit e w).1)
  end.
  intros E. destruct (Hc _ _ _ E) as (Hi & evs & Ht & Hr & Hp). cbn in Hi, Ht.
  split; [done |]. exists (evs ++ [EvReading excel_file]).
  rewrite <- app_assoc, rounds_of_app, prompts_of_app, Hr, Hp. by split_and!.
Qed.

Lemma remove_successful_run p successful w :
  ∃ evs,
    remove_successful_from_failed_excel env p successful w
    = (mkWorld (tree w) (prune_sheets (abs_path env p) successful (sheets w)) (stdin w)
               (evs ++ trace w), inr tt) ∧
    rounds_of evs = 0%nat ∧ prompts_of evs = 0%nat.
Proof.
  unfold remove_successful_from_failed_excel, prune_sheets, remaining_rows, bind at 1,
    sheet_exists.
  destruct (sheets w !! abs_path env p) as [sh|] eqn:Hsh.
  - rewrite bool_decide_eq_true_2 by eauto. cbn [negb].
    unfold try_except, bind at 1, read_excel. rewrite Hsh.
    cbn [Pandas.of_sheet df_columns df_rows]. unfold bind at 1.
    destruct (bool_decide ("UPC" ∈ columns sh)).
    + cbn [ret].
      match goal with
      | |- context [Pandas.empty ?c ?r] => destruct (Pandas.empty c r)
      end.
      * unfold bind, unlink. rewrite Hsh. cbn. by eexists [_].
      * unfold bind, to_excel. cbn. by eexists [_].
    + cbn. by eexists [_].
  - rewrite bool_decide_eq_false_2 by (by intros []). cbn. exists []. by rewrite same_world.
Qed.

(** The end of a round that had failures: the failed-subset manifest is
    written, then (in a retry round with a completed item) the round's
    own manifest is pruned. *)
Lemma finish_round_failures excel_file output_dir stats successful w failed_excel_path :
  Pandas.empty (Pandas.of_dicts (map f_row_data (failed stats))).1
               (Pandas.of_dicts (map f_row_data (failed stats))).2 = false →
  failed_excel_path_of env output_dir = Some failed_excel_path →
  ∃ evs,
    finish_round env excel_file output_dir (stats, successful) w
    = (mkWorld (tree w)
         (let written := <[abs_path env failed_excel_path := failed_sheet (failed stats)]>
                           (sheets w) in
          if Str.startswith "failed_" (PathOps.name (PathOps.of_str excel_file))
             && negb (bool_decide (successful = ∅))
          then prune_sheets (abs_path env (PathOps.of_str excel_file)) successful written
          else written)
         (stdin w) (evs ++ trace w),
       inr (Some failed_excel_path)) ∧
    rounds_of evs = 0%nat ∧ prompts_of evs = 0%nat.
Proof.
  intros Hne Hpath. unfold finish_round. cbn [fst snd].
  destruct (failed stats) as [|fi fs] eqn:Hf; [done |].
  unfold bind at 1, bind at 1, create_failed_excel. rewrite Hne.
  unfold failed_excel_path_of in Hpath. unfold bind at 1.
  assert (Hdir : ∃ dir_name,
    (if Str.truthy (PathOps.name (PathOps.of_str output_dir))
     then ret (PathOps.name (PathOps.of_str output_dir))
     else if anchor (PathOps.of_str output_dir) then ret "/"
          else raise (Exception "tuple index out of range")) w = (w, inr dir_name) ∧
    failed_excel_path = cwd env // ("failed_" +:+ dir_name +:+ ".xlsx")).
  { destruct (Str.truthy _); [| destruct (anchor _); [| done]];
      injection Hpath as <-; eauto. }
  destruct Hdir as (dir_name & -> & ->).
  unfold bind at 1, to_excel, set_sheets. cbn [ret emit bind fst snd].
  cbn [tree sheets stdin trace]. unfold failed_sheet.
  set (w1 := mkWorld _ _ _ (EvSaved _ :: trace w)).
  destruct (Str.startswith "failed_" (PathOps.name (PathOps.of_str excel_file))
            && negb (bool_decide (successful = ∅))).
  - destruct (remove_successful_run (PathOps.of_str excel_file) successful w1)
      as (evs & E & Hr & Hp).
    exists (evs ++ [EvSaved (cwd env // ("failed_" +:+ dir_name +:+ ".xlsx"))]).
    unfold bind. rewrite E. cbn.
    by rewrite <- app_assoc, rounds_of_app, prompts_of_app, Hr, Hp.
  - by exists [EvSaved (cwd env // ("failed_" +:+ dir_name +:+ ".xlsx"))].
Qed.

(** The end of a round without failures. *)
Lemma finish_round_clean excel_file output_dir stats successful w :
  failed stats = [] →
  ∃ evs,
    finish_round env excel_file output_dir (stats, successful) w
    = (mkWorld (tree w)
         (if Str.startswith "failed_" (PathOps.name (PathOps.of_str excel_file))
             && negb (bool_decide (successful = ∅))
          then prune_sheets (abs_path env (PathOps.of_str excel_file)) successful (sheets w)
          else sheets w)
         (stdin w) (evs ++ trace w),
       inr None) ∧
    rounds_of evs = 0%nat ∧ prompts_of evs = 0%nat.
Proof.
  intros Hf. unfold finish_round. cbn [fst snd]. rewrite Hf.
  unfold bind at 1. cbn [ret]. unfold bind at 1.
  destruct (Str.startswith "failed_" (PathOps.name (PathOps.of_str excel_file))
            && negb (bool_decide (successful = ∅))).
  - destruct (remove_successful_run (PathOps.of_str excel_file) successful w)
      as (evs & -> & Hr & Hp).
    exists evs. by cbn.
  - exists []. cbn. by rewrite same_world.
Qed.

(** A round ends with a failed-subset manifest only at the place the
    output directory's name gives. *)
Lemma finish_round_some_inv excel_file output_dir r w w2 p :
  finish_round env excel_file output_dir r w = (w2, inr (Some p)) →
  failed_excel_path_of env output_dir = Some p.
Proof.
  unfold finish_round.
  intros (w1 & created & Hcreate & Hrest)%bind_inr.
  apply bind_inr in Hrest as (w3 & [] & _ & Hret).
  destruct (failed r.1) as [|fi fs]; [by injection Hret |].
  injection Hret as _ ->.
  apply bind_inr in Hcreate as (w4 & created & Hcreate & Hrest).
  apply bind_inr in Hrest as (w5 & [] & _ & Hret). injection Hret as _ ->.
  revert Hcreate. unfold create_failed_excel, failed_excel_path_of.
  destruct (Pandas.empty _ _); [discriminate |].
  intros (w6 & dir_name & Hdir & Hrest)%bind_inr.
  apply bind_inr in Hrest as (w7 & [] & _ & Hret). injection Hret as _ <-.
  revert Hdir.
  destruct (Str.truthy (PathOps.name (PathOps.of_str output_dir)));
    [| destruct (anchor (PathOps.of_str output_dir)); [| discriminate]];
    by intros [= _ <-].
Qed.

End Finish.

(** ** Rows and sheets *)

Lemma series_of_keys cols cells : map fst (Pandas.series_of cols cells) = cols.
Proof.
  revert cells. induction cols as [|c cols IH]; intros cells; [done |].
  destruct cells; cbn; by rewrite IH.
Qed.

Lemma series_of_cells cols cells :
  length cells = length cols → map snd (Pandas.series_of cols cells) = cells.
Proof.
  revert cells. induction cols as [|c cols IH]; intros [|x cells]; cbn; try done.
  intros [= Hl]. by rewrite IH.
Qed.

Lemma number_from_rows i cols rs :
  map snd (Pandas.number_from i cols rs) = map (Pandas.series_of cols) rs.
Proof.
  revert i. induction rs as [|r rs IH]; intros i; cbn; [done |]. by rewrite IH.
Qed.

Lemma manifest_row_keys sh r :
  r ∈ map snd (manifest_rows sh) → map fst r = columns sh.
Proof.
  unfold manifest_rows, Pandas.dropna, Pandas.of_sheet. cbn [df_rows df_columns].
  intros ([i r'] & -> & Hin)%list_elem_of_fmap. cbn.
  apply list_elem_of_In, List.filter_In in Hin as [Hin _].
  assert (Hr : r' ∈ map snd (Pandas.number_from 0 (columns sh) (rows sh))).
  { apply list_elem_of_fmap. exists (i, r'). split; [done | by apply list_elem_of_In]. }
  rewrite number_from_rows in Hr.
  apply list_elem_of_fmap in Hr as (cells & -> & _). apply series_of_keys.
Qed.

Lemma filter_map_comm {A B} (f : B → bool) (g : A → B) l :
  List.filter f (map g l) = map g (List.filter (λ a, f (g a)) l).
Proof.
  induction l as [|a l IH]; cbn; [done |]. destruct (f (g a)); cbn; by rewrite IH.
Qed.

(** Pruning keeps the cells of the rows that stay. *)
Lemma remaining_rows_cells successful sh :
  Forall (λ cells, length cells = length (columns sh)) (rows sh) →
  map (map snd) (remaining_rows successful sh) = kept_rows successful sh.
Proof.
  intros Hwf. unfold remaining_rows, kept_rows, Pandas.of_sheet. cbn [df_rows].
  rewrite number_from_rows, filter_map_comm, map_map.
  induction Hwf as [|cells rs Hlen _ IH]; [done |]. cbn.
  destruct (negb _); cbn; [rewrite series_of_cells by done |]; by rewrite IH.
Qed.

Lemma prune_sheets_lookup p successful (m : gmap Path Sheet) sh :
  m !! p = Some sh → "UPC" ∈ columns sh →
  Forall (λ cells, length cells = length (columns sh)) (rows sh) →
  prune_sheets p successful m !! p
  = match kept_rows successful sh with
    | [] => None
    | kept => Some (mkSheet (columns sh) kept)
    end.
Proof.
  intros Hsh Hupc Hwf. unfold prune_sheets. rewrite Hsh, bool_decide_eq_true_2 by done.
  rewrite <- (remaining_rows_cells successful sh Hwf).
  destruct (columns sh) as [|c cols] eqn:Hc; [by apply elem_of_nil in Hupc |].
  destruct (remaining_rows successful sh) as [|r rem]; cbn.
  - apply lookup_delete_eq.
  - by rewrite lookup_insert_eq.
Qed.

Lemma prune_sheets_lookup_ne p q successful (m : gmap Path Sheet) :
  p ≠ q → prune_sheets p successful m !! q = m !! q.
Proof.
  intros Hne. unfold prune_sheets. destruct (m !! p) as [sh|]; [| done].
  destruct (bool_decide _); [| done]. destruct (Pandas.empty _ _).
  - by rewrite lookup_delete_ne.
  - by rewrite lookup_insert_ne.
Qed.

(** ** Pruning after a retry round *)

Section Pruning.

Context (env : Env).

(** The failures of a round carry rows of its manifest, so their sheet
    is not empty. *)
Lemma failed_rows_not_empty sh (fs : list FailedItem) :
  "UPC" ∈ columns sh → fs ≠ [] →
  (∀ fi, fi ∈ fs → f_row_data fi ∈ map snd (manifest_rows sh)) →
  Pandas.empty (Pandas.of_dicts (map f_row_data fs)).1
               (Pandas.of_dicts (map f_row_data fs)).2 = false.
Proof.
  intros Hupc Hne Hrows. destruct fs as [|fi fs]; [done |]. cbn.
  rewrite (manifest_row_keys sh (f_row_data fi)) by (apply Hrows; left).
  destruct (columns sh); [by apply elem_of_nil in Hupc | done].
Qed.

(** C1, as the code has it.  Take a retry round (the name of its
    manifest starts with [failed_]) that runs to its summary, and whose
    end does not fail for want of a name of the output directory.  The
    ids in [successful_upcs] are those reported as completed in the
    round; an item that was skipped is not among them.  At the end the
    failures of the round, if any, are written to the failed-subset
    artifact; then, if some item completed, the round's manifest file
    (with what it holds at this point, [sh]) is pruned of the completed
    ids: it is deleted when no row stays, and else rewritten with the
    rows that stay, cells unchanged.  When no item completed, nothing
    is pruned. *)
Theorem retry_round_prunes_completed excel_file output_dir threads dbg no_categories
    w w1 stats successful sh :
  Str.startswith "failed_" (PathOps.name (PathOps.of_str excel_file)) = true →
  run_round env excel_file output_dir threads dbg no_categories w
    = (w1, inr (stats, successful)) →
  failed stats = [] ∨ is_Some (failed_excel_path_of env output_dir) →
  written_sheets env output_dir (failed stats) (sheets w)
    !! abs_path env (PathOps.of_str excel_file) = Some sh →
  "UPC" ∈ columns sh →
  Forall (λ cells, length cells = length (columns sh)) (rows sh) →
  ∃ w2 ret evs,
    finish_round env excel_file output_dir (stats, successful) w1 = (w2, inr ret) ∧
    trace w1 = EvSummary stats :: evs ++ round_header excel_file ++ trace w ∧
    (∀ u, u ∈ successful ↔ u ∈ completed_ids evs) ∧
    sheets w2 !! abs_path env (PathOps.of_str excel_file)
    = if bool_decide (successful = ∅) then Some sh
      else match kept_rows successful sh with
           | [] => None
           | kept => Some (mkSheet (columns sh) kept)
           end.
Proof.
  intros Hretry Hround Hend Hsh Hupc Hwf.
  destruct (run_round_inv env _ _ _ _ _ _ _ _ Hround) as (sh0 & Hsh0 & Hupc0 & Hlink0 & Hmk & Hth).
  destruct (run_round_run env excel_file output_dir threads dbg no_categories w sh0
              Hsh0 Hupc0 Hlink0 Hmk Hth)
    as (w1' & stats' & succ' & evs & E & Hs & _ & _ & _ & Htr & _ & _ & _ & Hsucc & Hrows).
  rewrite Hround in E. injection E as <- <- <-.
  assert (Hfin : ∃ w2 ret,
    finish_round env excel_file output_dir (stats, successful) w1 = (w2, inr ret) ∧
    sheets w2 = if bool_decide (successful = ∅)
                then written_sheets env output_dir (failed stats) (sheets w)
                else prune_sheets (abs_path env (PathOps.of_str excel_file)) successful
                       (written_sheets env output_dir (failed stats) (sheets w))).
  { unfold written_sheets. destruct (failed stats) as [|fi fs] eqn:Hf.
    - destruct (finish_round_clean env excel_file output_dir stats successful w1 Hf)
        as (evs' & E & _).
      eexists _, _. split; [exact E |]. cbn [sheets]. rewrite Hretry, Hs.
      by destruct (bool_decide (successful = ∅)).
    - destruct Hend as [|[p Hp]]; [done |].
      destruct (finish_round_failures env excel_file output_dir stats successful w1 p)
        as (evs' & E & _); [| done |].
      { apply (failed_rows_not_empty sh0); [done | by rewrite Hf | by rewrite Hf]. }
      eexists _, _. split; [exact E |]. cbn [sheets]. rewrite Hretry, Hs, Hp, Hf.
      by destruct (bool_decide (successful = ∅)). }
  destruct Hfin as (w2 & ret & E & Hsheets).
  exists w2, ret, evs. split_and!; [done | done | done |].
  rewrite Hsheets. destruct (bool_decide (successful = ∅)); [done |].
  by apply prune_sheets_lookup.
Qed.

End Pruning.

Lemma retry_round_prunes_completed_sample :
  ∃ w2 ret,
    finish_round sample_env "failed_old.xlsx" "out" (retry_sample_stats, {[ "A1" ]})
      (run_round sample_env "failed_old.xlsx" "out" 1 false false retry_sample_world).1
    = (w2, inr ret) ∧
    sheets w2 !! abs_path sample_env (PathOps.of_str "failed_old.xlsx")
    = Some retry_sample_kept.
Proof.
  assert (Hround : run_round sample_env "failed_old.xlsx" "out" 1 false false
                             retry_sample_world
                   = ((run_round sample_env "failed_old.xlsx" "out" 1 false false
                                 retry_sample_world).1,
                      inr (retry_sample_stats, {[ "A1" ]}))) by (vm_compute; reflexivity).
  destruct (retry_round_prunes_completed sample_env "failed_old.xlsx" "out" 1 false false
              retry_sample_world _ _ _ sample_manifest eq_refl Hround)
    as (w2 & ret & evs & E & _ & _ & Hlook).
  - right. vm_compute. eauto.
  - vm_compute. reflexivity.
  - cbn. repeat constructor.
  - cbn. repeat constructor.
  - exists w2, ret. split; [exact E |]. rewrite Hlook. vm_compute. reflexivity.
Defined.

(** C1 as the specification states it fails for skipped items: in a
    retry round whose one item [A1] is skipped (its file is there), the
    record of [A1] stays in the failed-subset manifest. *)
Lemma skipped_item_is_not_pruned :
  reports_of
    (trace (process_excel sample_env "failed_out.xlsx" "out" 1 false false retry_world).1)
    = [(Skipped, "A1")] ∧
  (process_excel sample_env "failed_out.xlsx" "out" 1 false false retry_world).2 = inr None ∧
  sheets (process_excel sample_env "failed_out.xlsx" "out" 1 false false retry_world).1
    !! (work_dir // "failed_out.xlsx") = Some one_manifest.
Proof. vm_compute. split_and!; reflexivity. Qed.

(** ** The retry coordinator *)

Section Coordinator.

Context (env : Env).

Lemma series_of_id (r : Series) : Pandas.series_of (map fst r) (map snd r) = r.
Proof. induction r as [|[c x] r IH]; cbn; [done |]. by rewrite IH. Qed.

(** A row that failed, and whose id did not complete, is in the
    failed-subset manifest after the end of the round, pruned or not. *)
Lemma artifact_keeps_failing_row sh0 (fs : list FailedItem) successful row p q
    (m : gmap Path Sheet) :
  "UPC" ∈ columns sh0 →
  (∀ fi, fi ∈ fs → f_row_data fi ∈ map snd (manifest_rows sh0)) →
  row ∈ map f_row_data fs → upc_key row ∉ successful →
  ∃ sh,
    (if Str.startswith "failed_" (PathOps.name q) && negb (bool_decide (successful = ∅))
     then prune_sheets (abs_path env q) successful (<[abs_path env p := failed_sheet fs]> m)
     else <[abs_path env p := failed_sheet fs]> m) !! abs_path env p = Some sh ∧
    map snd row ∈ rows sh.
Proof.
  intros Hupc Hrows Hrow Hnot.
  assert (Hin : map snd row ∈ rows (failed_sheet fs)).
  { unfold failed_sheet, Pandas.of_dicts, Pandas.to_sheet. cbn.
    apply list_elem_of_fmap. eauto. }
  assert (Hkeys : ∀ r, r ∈ map f_row_data fs → map fst r = columns sh0).
  { intros r (fi & -> & Hfi)%list_elem_of_fmap. by apply manifest_row_keys, Hrows. }
  assert (Hcols : columns (failed_sheet fs) = columns sh0).
  { unfold failed_sheet, Pandas.of_dicts, Pandas.to_sheet. cbn.
    destruct fs as [|fi fs]; [by apply elem_of_nil in Hrow |]. cbn.
    apply Hkeys. left. }
  destruct (Str.startswith "failed_" (PathOps.name q) && negb (bool_decide (successful = ∅)));
    [| exists (failed_sheet fs); by rewrite lookup_insert_eq].
  destruct (decide (abs_path env q = abs_path env p)) as [Heq|Hne].
  - rewrite Heq.
    rewrite (prune_sheets_lookup _ _ _ (failed_sheet fs)); [| apply lookup_insert_eq | | ].
    + assert (Hkept : map snd row ∈ kept_rows successful (failed_sheet fs)).
      { unfold kept_rows. apply list_elem_of_In, List.filter_In. split.
        - by apply list_elem_of_In.
        - rewrite Hcols, <- (Hkeys row Hrow), series_of_id.
          by rewrite bool_decide_eq_false_2. }
      destruct (kept_rows successful (failed_sheet fs)) as [|k kept];
        [by apply elem_of_nil in Hkept |]. eauto.
    + by rewrite Hcols.
    + rewrite Hcols. unfold failed_sheet, Pandas.of_dicts, Pandas.to_sheet. cbn.
      apply Forall_forall. intros cells (r & -> & Hr)%list_elem_of_fmap.
      by rewrite <- (Hkeys r Hr), !length_map.
  - rewrite prune_sheets_lookup_ne by done. exists (failed_sheet fs).
    by rewrite lookup_insert_eq.
Qed.

(** One failing round, seen from the coordinator. *)
Lemma failing_round_run row args current_file w w1 r p :
  failed_excel_path_of env (output_dir args) = Some p →
  run_round env current_file (output_dir args) (threads args) (debug args)
            (no_categories args) w = (w1, inr r) →
  row ∈ map f_row_data (failed r.1) → upc_key row ∉ r.2 →
  ∃ w2 sh,
    finish_round env current_file (output_dir args) r w1 = (w2, inr (Some p)) ∧
    rounds_of (trace w2) = S (rounds_of (trace w)) ∧
    sheets w2 !! abs_path env p = Some sh ∧ map snd row ∈ rows sh.
Proof.
  intros Hp Hround Hrow Hnot. destruct r as [stats successful]. cbn [fst snd] in *.
  destruct (run_round_inv env _ _ _ _ _ _ _ _ Hround)
    as (sh0 & Hsh0 & Hupc0 & Hlink0 & Hmk & Hth).
  destruct (run_round_run env current_file (output_dir args) (threads args) (debug args)
              (no_categories args) w sh0 Hsh0 Hupc0 Hlink0 Hmk Hth)
    as (w1' & stats' & succ' & evs & E & _ & _ & _ & _ & Htr & Hev & _ & _ & _ & Hrows).
  rewrite Hround in E. injection E as <- <- <-.
  destruct (finish_round_failures env current_file (output_dir args) stats successful w1 p)
    as (evs' & E & Hr & _); [| done |].
  { apply (failed_rows_not_empty sh0); [done | | done].
    intros Hnil. rewrite Hnil in Hrow. by apply elem_of_nil in Hrow. }
  destruct (artifact_keeps_failing_row sh0 (failed stats) successful row p
              (PathOps.of_str current_file) (sheets w1) Hupc0 Hrows Hrow Hnot)
    as (sh & Hlook & Hin).
  eexists _, sh. split; [exact E |]. cbn [trace sheets]. split_and!; [| done | done].
  rewrite rounds_of_app, Hr, Htr.
  change (EvSummary stats :: ?l) with ([EvSummary stats] ++ l).
  rewrite !rounds_of_app.
  destruct (item_events_between_rounds _ Hev) as (-> & _).
  by destruct (round_header_events current_file) as (-> & _).
Qed.

(** With a bounded budget and an item that fails in every round, the
    loop runs until the counter passes the budget. *)
Lemma retry_loop_exhausts row args p k :
  0 < retry args → failed_excel_path_of env (output_dir args) = Some p →
  ∀ fuel current_file retry_count w,
    retry_count + Z.of_nat k = retry args → 0 ≤ retry_count → (k < fuel)%nat →
    fails_every_round env row k args current_file retry_count w = true →
    ∃ w' sh tr,
      run_with_retry_from env fuel args current_file retry_count w = (w', inr tt) ∧
      rounds_of (trace w') = (rounds_of (trace w) + 1 + k)%nat ∧
      trace w' = EvHint (PathOps.name p) :: EvLimit (retry args) (PathOps.name p) :: tr ∧
      sheets w' !! abs_path env p = Some sh ∧ map snd row ∈ rows sh.
Proof.
  intros Hmax Hp. induction k as [|k IH]; intros fuel current_file retry_count w Hcnt Hpos Hfuel;
    (destruct fuel as [|fuel]; [lia |]); cbn [fails_every_round run_with_retry_from];
    destruct (run_round env current_file (output_dir args) (threads args) (debug args)
                        (no_categories args) w) as [w1 [e|r]] eqn:Hround; try done;
    intros [[Hrow%bool_decide_eq_true_1 Hnot%negb_true_iff]%andb_true_iff Hnext]%andb_true_iff;
    apply bool_decide_eq_false_1 in Hnot;
    destruct (failing_round_run row args current_file w w1 r p Hp Hround Hrow Hnot)
      as (w2 & sh & Hfin & Hrounds & Hlook & Hin);
    unfold bind at 1, process_excel, bind at 1; rewrite Hround, Hfin;
    (destruct (Z.eqb_spec (retry args) 0) as [|_]; [lia |]); cbn [negb].
  - destruct (Z.ltb_spec 0 (retry args)); [| lia].
    destruct (Z.ltb_spec (retry args) (retry_count + 1)); [| lia]. cbn [andb].
    eexists _, sh, _. split; [reflexivity |]. cbn [trace sheets]. split_and!; try done.
    unfold rounds_of in *. cbn. lia.
  - destruct (Z.ltb_spec 0 (retry args)); [| lia].
    destruct (Z.ltb_spec (retry args) (retry_count + 1)); [lia |]. cbn [andb].
    rewrite Hfin in Hnext. unfold bind at 1.
    destruct (IH fuel (PathOps.to_str p) (retry_count + 1)
                (emit (EvAutoRetry (retry_count + 1) (retry args)) w2).1)
      as (w' & sh' & tr & E & Hr' & Htr' & Hlook' & Hin'); [lia | lia | lia | done |].
    cbn [emit fst] in E |- *. exists w', sh', tr. split; [exact E |].
    split_and!; try done. rewrite Hr'. cbn [emit fst trace].
    unfold rounds_of in *. cbn. lia.
Qed.


End Coordinator.


(** ** Without the retry flag *)

Section Interactive.

Context (env : Env).

(** Whatever the coordinator does, it only adds to the trace. *)
Lemma coordinator_grows fuel :
  (∀ args current_file retry_count w,
     ∃ evs, trace (run_with_retry_from env fuel args current_file retry_count w).1
            = evs ++ trace w) ∧
  (∀ failed_excel_path args w,
     ∃ evs, trace (_handle_interactive_retry env fuel failed_excel_path args w).1
            = evs ++ trace w).
Proof.
  induction fuel as [|fuel [IHr IHh]]; (split; [intros args current_file retry_count w
                                               | intros failed_excel_path args w]);
    cbn [run_with_retry_from _handle_interactive_retry]; try (by exists []).
  - unfold bind at 1.
    destruct (process_excel env current_file (output_dir args) (threads args) (debug args)
                            (no_categories args) w) as [w1 r] eqn:E.
    destruct (process_excel_frame env _ _ _ _ _ _ _ _ E) as (_ & evs1 & Ht1 & _).
    destruct r as [e|[p|]]; cbn [fst]; [by exists evs1 | | ].
    + destruct (negb (retry args =? 0)).
      * destruct ((0 <? retry args) && (retry args <? retry_count + 1)).
        -- eexists (_ :: _ :: evs1). cbn. by rewrite Ht1.
        -- unfold bind, emit.
           match goal with
           | |- context [run_with_retry_from env fuel ?a ?f ?c ?w0] =>
               destruct (IHr a f c w0) as [evs2 Ht2]
           end.
           exists (evs2 ++ EvAutoRetry (retry_count + 1) (retry args) :: evs1).
           rewrite Ht2. cbn. by rewrite Ht1, <- app_assoc.
      * unfold bind, emit.
        match goal with
        | |- context [_handle_interactive_retry env fuel ?q ?a ?w0] =>
            destruct (IHh q a w0) as [evs2 Ht2]
        end.
        eexists (evs2 ++ _ :: evs1). rewrite Ht2. cbn. by rewrite Ht1, <- app_assoc.
    + eexists (_ :: evs1). cbn. by rewrite Ht1.
  - unfold bind at 1, input_.
    destruct (stdin w) as [|line rest]; [by exists [EvPrompt] |].
    set (w1 := mkWorld _ _ rest _).
    repeat match goal with
           | |- context [if bool_decide ?P then _ else _] => destruct (bool_decide P)
           end; unfold bind, emit, _print_retry_hint; cbn [fst snd].
    + match goal with
      | |- context [run_with_retry_from env fuel ?a ?f ?c ?w0] =>
          destruct (IHr a f c w0) as [evs2 Ht2]
      end.
      eexists (evs2 ++ [_; _]). rewrite Ht2. cbn. by rewrite <- app_assoc.
    + match goal with
      | |- context [run_with_retry_from env fuel ?a ?f ?c ?w0] =>
          destruct (IHr a f c w0) as [evs2 Ht2]
      end.
      eexists (evs2 ++ [_; _]). rewrite Ht2. cbn. by rewrite <- app_assoc.
    + by eexists [_; _; _].
    + match goal with
      | |- context [_handle_interactive_retry env fuel ?q ?a ?w0] =>
          destruct (IHh q a w0) as [evs2 Ht2]
      end.
      eexists (evs2 ++ [_; _]). rewrite Ht2. cbn. by rewrite <- app_assoc.
Qed.

Lemma declined_is_not_accepted response :
  response ∈ ["N"; "NO"] →
  bool_decide (response ∈ ["Y"; "YES"]) = false ∧
  bool_decide (response ∈ ["D"; "DEBUG"]) = false ∧
  bool_decide (response ∈ ["N"; "NO"]) = true.
Proof.
  intros H. split_and!; [| | by apply bool_decide_eq_true_2].
  - apply bool_decide_eq_false_2. intros H2.
    apply list_elem_of_In in H, H2. cbn in H, H2. intuition congruence.
  - apply bool_decide_eq_false_2. intros H2.
    apply list_elem_of_In in H, H2. cbn in H, H2. intuition congruence.
Qed.


End Interactive.



(** ** Scenario A of the specification *)

Example scenario_A :
  reports_of (trace (process_excel sample_env "a.xlsx" "out" 1 false false scenario_A_world).1)
    = [(Completed, "A3"); (Failed, "A2"); (Completed, "A1")] ∧
  sheets (process_excel sample_env "a.xlsx" "out" 1 false false scenario_A_world).1
    !! (work_dir // "failed_out.xlsx")
    = Some (mkSheet ["UPC"; "IMAGES LINK"] [[Some "A2"; Some "bad"]]).
Proof. vm_compute. split; reflexivity. Qed.
